(** * TD Ameritrade client: session state, token handling and request dispatch

    A shallow embedding of [td/client.py] (class [TDClient]) and
    [td/watchlist_item.py] (class [WatchlistItem]).

    Python objects are mutable and every method can raise, so methods are
    computations in a state-and-exception monad: a method takes the session
    (the client object together with the outside world it talks to) and
    returns either a value or a raised exception, together with the session
    as the method left it.  A raise does not roll the session back. *)

From Stdlib Require Import String Ascii List ZArith QArith Qround Qabs Bool Lia.
From Stdlib Require Import DecimalString.
Import ListNotations.

Open Scope string_scope.
Open Scope Z_scope.

(** ** Python values *)

#[local] Set Warnings "-register-all".

(** The values that travel through the client: what [json.load] and
    [response.json()] produce and what [json.dump] accepts.  A [dict] keeps
    its insertion order, so it is an association list.  A Python float is
    a rational number: [time.time()] is a rational number of seconds, and
    the result of a float operation is rounded to the nearest binary64
    number ([round_double] below). *)
Inductive value : Type :=
| VNone
| VBool (b : bool)
| VInt (z : Z)
| VFloat (q : Q)
| VStr (s : string)
| VList (l : list value)
| VDict (d : list (string * value)).

Definition pydict : Type := list (string * value).

(** A Python dictionary holds a key once. *)
Definition wf (d : pydict) : Prop := NoDup (map fst d).

(** The exceptions the modelled code can raise. *)
Inductive exn : Type :=
| KeyError (key : string)
| TypeError
| IndexError
| ValueError (message : string)
| UnboundLocalError (name : string)
| JSONDecodeError.

(** [bool(v)]: Python truthiness. *)
Definition truthy (v : value) : bool :=
  match v with
  | VNone => false
  | VBool b => b
  | VInt z => negb (z =? 0)
  | VFloat q => negb (Qeq_bool q 0)
  | VStr s => negb (s =? "")%string
  | VList l => match l with [] => false | _ => true end
  | VDict d => match d with [] => false | _ => true end
  end.

(** The numeric value of an [int], [float] or [bool]; anything else makes an
    arithmetic operation or an ordering comparison with a float raise
    [TypeError]. *)
Definition as_number (v : value) : option Q :=
  match v with
  | VInt z => Some (inject_Z z)
  | VFloat q => Some q
  | VBool b => Some (inject_Z (if b then 1 else 0))
  | _ => None
  end.

(** [int(x)] on a float: truncation towards zero. *)
Definition Qtrunc (q : Q) : Z := Z.quot (Qnum q) (Zpos (Qden q)).

(** *** Float arithmetic

    CPython floats are IEEE-754 binary64 numbers: the result of an
    addition or a subtraction is the exact result rounded to the nearest
    number with a 53-bit significand, ties going to the even significand.
    Overflow and subnormal numbers (magnitudes beyond about 1e308 or below
    about 1e-308) are left out. *)

(** [2^e] *)
Definition pow2 (e : Z) : Q :=
  if 0 <=? e then inject_Z (2 ^ e) else / inject_Z (2 ^ (- e)).

(** The exponent of a positive number: the [e] with [2^e <= q < 2^(e+1)]. *)
Definition binade (q : Q) : Z :=
  let e0 := Z.log2 (Qnum q) - Z.log2 (Zpos (Qden q)) in
  if Qle_bool (pow2 e0) q then e0 else e0 - 1.

(** The nearest whole number, ties to even. *)
Definition round_half_even (q : Q) : Z :=
  let f := Qfloor q in
  match Qcompare (q - inject_Z f) (1 # 2) with
  | Lt => f
  | Gt => f + 1
  | Eq => if Z.even f then f else f + 1
  end.

(** The nearest binary64 number: the significand [q / u] is rounded to a
    whole number, [u] being the unit in the last place of [q]. *)
Definition round_double (q : Q) : Q :=
  if Qeq_bool q 0 then 0%Q
  else
    let a := Qabs q in
    let u := pow2 (binade a - 52) in
    let r := Qred (inject_Z (round_half_even (a / u)) * u) in
    if Qle_bool 0 q then r else (- r)%Q.

(** ** Dictionaries *)

Module Dict.

(** [d[k]] as a lookup; [None] is the [KeyError] case. *)
Fixpoint get (k : string) (d : pydict) : option value :=
  match d with
  | [] => None
  | (k', v) :: d' => if (k' =? k)%string then Some v else get k d'
  end.

(** [k in d] *)
Definition mem (k : string) (d : pydict) : bool :=
  match get k d with Some _ => true | None => false end.

(** [d[k] = v]: overwrite in place, or append a new key. *)
Fixpoint set (k : string) (v : value) (d : pydict) : pydict :=
  match d with
  | [] => [(k, v)]
  | (k', v') :: d' =>
      if (k' =? k)%string then (k', v) :: d' else (k', v') :: set k v d'
  end.

(** [del d[k]] on a dictionary that has the key. *)
Definition remove (k : string) (d : pydict) : pydict :=
  filter (fun kv => negb (fst kv =? k)%string) d.

(** [d.update(other)] *)
Definition update (d other : pydict) : pydict :=
  fold_left (fun acc kv => set (fst kv) (snd kv) acc) other d.

End Dict.

(** ** The state-and-exception monad *)

Inductive res (A : Type) : Type :=
| Ok (a : A)
| Raise (e : exn).
Arguments Ok {A} a.
Arguments Raise {A} e.

Definition M (S A : Type) : Type := S -> res A * S.

Definition ret {S A} (a : A) : M S A := fun s => (Ok a, s).

Definition bind {S A B} (c : M S A) (k : A -> M S B) : M S B :=
  fun s =>
    match c s with
    | (Ok a, s') => k a s'
    | (Raise e, s') => (Raise e, s')
    end.

Definition raise {S A} (e : exn) : M S A := fun s => (Raise e, s).

Definition gets {S A} (f : S -> A) : M S A := fun s => (Ok (f s), s).

Definition modify {S} (f : S -> S) : M S unit := fun s => (Ok tt, f s).

(** *** [dict.update] with an argument that is not a dictionary

    [d.update(x)] iterates over [x], and every element must itself be
    iterable and have exactly two items, a key and a value, which are
    stored one element after the other: elements before an offending one
    stay stored.  An [x] or an element that cannot be iterated raises
    [TypeError]; an element with another number of items raises
    [ValueError]; a key that is a list or a dictionary cannot be hashed
    and raises [TypeError].  The dictionaries of the model have string
    keys: a key that is a number, a boolean or [None], which Python
    would store, is not covered, and the model raises [TypeError] for it
    too. *)

(** The items that iterating over [x] yields; [None] when it cannot be
    iterated. *)
Definition items_of (x : value) : option (list value) :=
  match x with
  | VList l => Some l
  | VStr s =>
      Some (map (fun c => VStr (String c EmptyString))
              (list_ascii_of_string s))
  | VDict d => Some (map (fun kv => VStr (fst kv)) d)
  | _ => None
  end.

Definition nat_str (n : nat) : string :=
  NilZero.string_of_uint (Nat.to_uint n).

Definition update_length_message (i n : nat) : string :=
  "dictionary update sequence element #" ++ nat_str i ++ " has length "
    ++ nat_str n ++ "; 2 is required".

Fixpoint update_seq (i : nat) (l : list value) (d : pydict)
  : res unit * pydict :=
  match l with
  | [] => (Ok tt, d)
  | x :: rest =>
      match items_of x with
      | None => (Raise TypeError, d)
      | Some [k; v] =>
          match k with
          | VStr key => update_seq (S i) rest (Dict.set key v d)
          | _ => (Raise TypeError, d)
          end
      | Some items =>
          (Raise (ValueError (update_length_message i (List.length items))),
           d)
      end
  end.

(** [d.update(x)]: the outcome and the dictionary it leaves. *)
Definition dict_update (d : pydict) (x : value) : res unit * pydict :=
  match x with
  | VDict other => (Ok tt, Dict.update d other)
  | _ =>
      match items_of x with
      | Some l => update_seq 0 l d
      | None => (Raise TypeError, d)
      end
  end.

(** A lookup that raises when it finds nothing. *)
Definition or_raise {S A} (e : exn) (o : option A) : M S A :=
  match o with Some a => ret a | None => raise e end.

(** [keeps f c]: running [c] leaves the part [f] of the state as it was,
    whether [c] returns or raises. *)
Definition keeps {S A X} (f : S -> X) (c : M S A) : Prop :=
  forall s, f (snd (c s)) = f s.

Declare Scope py_scope.
Delimit Scope py_scope with py.
Notation "x <- c ;; k" := (bind c (fun x => k))
  (at level 61, c at next level, right associativity) : py_scope.
Notation "c ;; k" := (bind c (fun _ => k))
  (at level 61, right associativity) : py_scope.
Open Scope py_scope.

(** ** Strings *)

Module Str.

(** [s.startswith(sep)] *)
Fixpoint starts_with (sep s : string) : bool :=
  match sep, s with
  | EmptyString, _ => true
  | String _ _, EmptyString => false
  | String a sep', String b s' => Ascii.eqb a b && starts_with sep' s'
  end.

(** [sep in s]: [sep] occurs somewhere in [s]. *)
Fixpoint contains (sep s : string) : bool :=
  starts_with sep s
  || match s with
     | EmptyString => false
     | String _ s' => contains sep s'
     end.

(** The scan behind [s.split(sep)] for a non-empty [sep]: it returns the
    piece being read and the pieces after it.  [skip] counts the characters
    of a separator just matched that are still to be dropped, so matches
    are taken leftmost and do not overlap. *)
Fixpoint split_from (sep : string) (skip : nat) (s : string)
  : string * list string :=
  match s with
  | EmptyString => (EmptyString, [])
  | String c s' =>
      match skip with
      | S k => split_from sep k s'
      | O =>
          if starts_with sep s
          then (EmptyString,
                let (p, ps) := split_from sep (String.length sep - 1) s' in
                p :: ps)
          else let (p, ps) := split_from sep 0 s' in (String c p, ps)
      end
  end.

(** [s.split(sep)] *)
Definition split (sep s : string) : list string :=
  let (p, ps) := split_from sep 0 s in p :: ps.

(** [s[n:]] *)
Fixpoint drop (n : nat) (s : string) : string :=
  match n, s with
  | O, _ => s
  | S _, EmptyString => EmptyString
  | S n', String _ s' => drop n' s'
  end.

(** Following the specification's words, not the code: "the remainder"
    of [s] after [sep], the text that follows the first [sep] in [s];
    [None] when [sep] does not occur. *)
Fixpoint remainder_after (sep s : string) : option string :=
  if starts_with sep s then Some (drop (String.length sep) s)
  else
    match s with
    | EmptyString => None
    | String _ s' => remainder_after sep s'
    end.

(** [sep.join(parts)] *)
Definition join (sep : string) (parts : list string) : string :=
  String.concat sep parts.

(** ['-' * n] *)
Fixpoint times (s : string) (n : nat) : string :=
  match n with
  | O => EmptyString
  | S n' => s ++ times s n'
  end.

Definition lower_ascii (c : ascii) : ascii :=
  let n := nat_of_ascii c in
  if ((65 <=? n) && (n <=? 90))%nat then ascii_of_nat (n + 32) else c.

(** [s.lower()] on ASCII text. *)
Fixpoint lower (s : string) : string :=
  match s with
  | EmptyString => EmptyString
  | String c s' => String (lower_ascii c) (lower s')
  end.

End Str.

(** [s in (a, b, ...)] for strings. *)
Definition str_in (s : string) (l : list string) : bool :=
  existsb (String.eqb s) l.

(** A line feed and a double quote, for message templates. *)
Definition nl : string := String (ascii_of_nat 10) EmptyString.
Definition dq : string := String (ascii_of_nat 34) EmptyString.

(** [d[k]] in a dictionary of constants, [None] when the key is missing. *)
Fixpoint lookup {A : Type} (k : string) (d : list (string * A)) : option A :=
  match d with
  | [] => None
  | (k', v) :: d' => if (k' =? k)%string then Some v else lookup k d'
  end.

(** [n in (a, b, ...)] for integers. *)
Definition int_in (n : Z) (l : list Z) : bool :=
  existsb (Z.eqb n) l.

(** ** What the client does not define itself *)

(** The standard library and builtins the client calls.  They are not part
    of the repository, so the model takes them as given:
    - [bytes], the content of a file;
    - [json_dumps], the text [json.dump] writes for a value, and
      [json_loads], the value [json.load] reads from a text ([None] when the
      text does not parse);
    - [py_str], [str(v)] as ['{}'.format(v)] renders it;
    - [int_of_str], [int(s)] on a string ([None] when it raises
      [ValueError]). *)
Class Runtime : Type := {
  bytes : Type;
  json_dumps : value -> bytes;
  json_loads : bytes -> option value;
  py_str : value -> string;
  int_of_str : string -> option Z
}.

(** [response.headers] is a case-insensitive dictionary of [requests]. *)
Definition Headers : Type := list (string * string).

Fixpoint header_get (name : string) (h : Headers) : option string :=
  match h with
  | [] => None
  | (k, v) :: h' =>
      if (Str.lower k =? Str.lower name)%string then Some v
      else header_get name h'
  end.

(** The arguments of one [requests.get/post/put/delete/patch] call. *)
Record Request : Type := mkRequest {
  req_method : string;
  req_url : string;
  req_headers : pydict;
  req_params : value;
  req_data : value;
  req_json : value
}.

(** The [requests.Response] the call returns: the attributes the client
    reads.  [body_json] is what [response.json()] returns, [None] when the
    body is not JSON and the call raises. *)
Record Response : Type := mkResponse {
  status_code : Z;
  headers : Headers;
  content : string;
  text : string;
  url : string;
  links : value;
  body_json : option value;
  request_body : value;
  request_method : string
}.

(** One [print(template.format(args))] on standard output. *)
Inductive pyobj : Type :=
| OInt (z : Z)
| OStr (s : string)
| OHeaders (h : Headers)
| OValue (v : value).

Record Printed : Type := mkPrinted {
  template : string;
  args : list pyobj
}.

(** The seven lines [_make_request] prints for an error status: a rule,
    the status, the URL, the headers, the links and the text of the
    response, and a rule. *)
Definition diagnostic_record (r : Response) : list Printed :=
  [ mkPrinted (Str.times "-" 80) [];
    mkPrinted "BAD REQUEST - STATUS CODE: {}" [OInt (status_code r)];
    mkPrinted "RESPONSE URL: {}" [OStr (url r)];
    mkPrinted "RESPONSE HEADERS: {}" [OHeaders (headers r)];
    mkPrinted "RESPONSE PARAMS: {}" [OValue (links r)];
    mkPrinted "RESPONSE TEXT: {}" [OStr (text r)];
    mkPrinted (Str.times "-" 80) [] ].

(** ** The client object and the world around it *)

(** [self.config] *)
Record Config : Type := mkConfig {
  cache_state : bool;
  api_endpoint : string;
  api_version : string;
  auth_endpoint : string;
  token_endpoint : string;
  refresh_enabled : bool
}.

Definition default_config : Config :=
  {| cache_state := true;
     api_endpoint := "https://api.tdameritrade.com";
     api_version := "v1";
     auth_endpoint := "https://auth.tdameritrade.com/auth";
     token_endpoint := "oauth2/token";
     refresh_enabled := true |}.

(** [self.state] as [__init__] sets it: the default values. *)
Definition default_state : pydict :=
  [ ("access_token", VNone);
    ("refresh_token", VNone);
    ("access_token_expires_at", VInt 0);
    ("refresh_token_expires_at", VInt 0);
    ("authorization_url", VNone);
    ("redirect_code", VNone);
    ("loggedin", VBool false) ].

Section Client.

Context {rt : Runtime}.

(** A session is the [TDClient] object ([config], [state], [client_id],
    [redirect_uri], [account_number], [credentials_path]) and the part of
    the world its methods touch:
    - [file]: the session file at the path [_state_manager] resolves
      ([credentials_path], or [td_state.json] in the default directory),
      [None] when it does not exist;
    - [clock] and [ticks]: [time.time()] returns [clock ticks] and moves
      [ticks] on, so two reads of the clock may differ;
    - [net] and [sent]: the HTTP calls made so far, oldest first, and the
      response the server gives to the n-th call;
    - [stdout]: what has been printed, oldest first. *)
Record Session : Type := mkSession {
  config : Config;
  state : pydict;
  client_id : string;
  redirect_uri : string;
  account_number : option string;
  credentials_path : option string;
  file : option bytes;
  clock : nat -> Q;
  ticks : nat;
  net : nat -> Response;
  sent : list Request;
  stdout : list Printed
}.

Definition with_state (st : pydict) (s : Session) : Session :=
  {| config := config s; state := st; client_id := client_id s;
     redirect_uri := redirect_uri s; account_number := account_number s;
     credentials_path := credentials_path s; file := file s;
     clock := clock s; ticks := ticks s; net := net s; sent := sent s;
     stdout := stdout s |}.

Definition with_file (f : option bytes) (s : Session) : Session :=
  {| config := config s; state := state s; client_id := client_id s;
     redirect_uri := redirect_uri s; account_number := account_number s;
     credentials_path := credentials_path s; file := f;
     clock := clock s; ticks := ticks s; net := net s; sent := sent s;
     stdout := stdout s |}.

Definition with_ticks (n : nat) (s : Session) : Session :=
  {| config := config s; state := state s; client_id := client_id s;
     redirect_uri := redirect_uri s; account_number := account_number s;
     credentials_path := credentials_path s; file := file s;
     clock := clock s; ticks := n; net := net s; sent := sent s;
     stdout := stdout s |}.

Definition with_sent (l : list Request) (s : Session) : Session :=
  {| config := config s; state := state s; client_id := client_id s;
     redirect_uri := redirect_uri s; account_number := account_number s;
     credentials_path := credentials_path s; file := file s;
     clock := clock s; ticks := ticks s; net := net s; sent := l;
     stdout := stdout s |}.

Definition with_stdout (l : list Printed) (s : Session) : Session :=
  {| config := config s; state := state s; client_id := client_id s;
     redirect_uri := redirect_uri s; account_number := account_number s;
     credentials_path := credentials_path s; file := file s;
     clock := clock s; ticks := ticks s; net := net s; sent := sent s;
     stdout := l |}.

Definition Py (A : Type) : Type := M Session A.

(** [time.time()] *)
Definition time_time : Py Q :=
  fun s => (Ok (clock s (ticks s)), with_ticks (S (ticks s)) s).

(** [print(template.format(args))] *)
Definition print (tpl : string) (a : list pyobj) : Py unit :=
  modify (fun s => with_stdout (stdout s ++ [mkPrinted tpl a]) s).

(** One call of [requests]: the request goes out, the server's response
    comes back. *)
Definition requests_call (r : Request) : Py Response :=
  fun s => (Ok (net s (List.length (sent s))), with_sent (sent s ++ [r]) s).

(** [self.state[k]] *)
Definition state_get (k : string) : Py value :=
  st <- gets state ;; or_raise (KeyError k) (Dict.get k st).

(** [self.state[k] = v] *)
Definition state_set (k : string) (v : value) : Py unit :=
  modify (fun s => with_state (Dict.set k v (state s)) s).

(** [k in v] for a string [k] *)
Definition py_in (k : string) (v : value) : Py bool :=
  match v with
  | VDict d => ret (Dict.mem k d)
  | VList l =>
      ret (existsb
             (fun x => match x with VStr s => (s =? k)%string | _ => false end)
             l)
  | VStr s => ret (Str.contains k s)
  | _ => raise TypeError
  end.

(** [v[k]] for a string [k] *)
Definition py_getitem (v : value) (k : string) : Py value :=
  match v with
  | VDict d => or_raise (KeyError k) (Dict.get k d)
  | _ => raise TypeError
  end.

(** [int(v)].  The message of the [ValueError] is cut short: Python goes
    on with the base and the text that did not parse. *)
Definition int_of_value (v : value) : res Z :=
  match v with
  | VInt z => Ok z
  | VBool b => Ok (if b then 1 else 0)
  | VFloat q => Ok (Qtrunc q)
  | VStr s =>
      match int_of_str s with
      | Some z => Ok z
      | None => Raise (ValueError "invalid literal for int()")
      end
  | _ => Raise TypeError
  end.

Definition py_int (v : value) : Py Z :=
  fun s => (int_of_value v, s).

(** [x >= v] for a float [x] *)
Definition float_ge (x : Q) (v : value) : Py bool :=
  match as_number v with
  | Some y => ret (Qle_bool y x)
  | None => raise TypeError
  end.

(** [v - x] for a float [x]: a float subtraction ([v] an [int] is
    converted first, without rounding below [2^53]). *)
Definition sub_float (v : value) (x : Q) : Py Q :=
  match as_number v with
  | Some y => ret (round_double (y - x))
  | None => raise TypeError
  end.

(** *** [_headers] and [_api_endpoint] *)

Definition _headers (mode : option string) : Py pydict :=
  tok <- state_get "access_token" ;;
  let headers := [("Authorization", VStr ("Bearer " ++ py_str tok))] in
  match mode with
  | Some m =>
      if (m =? "json")%string then
        ret (Dict.set "Content-Type" (VStr "application/json") headers)
      else if (m =? "form")%string then
        ret (Dict.set "Content-Type"
               (VStr "application/x-www-form-urlencoded") headers)
      else ret headers
  | None => ret headers
  end.

Definition _api_endpoint (endpoint : string) (resource : option string)
  : Py string :=
  cfg <- gets config ;;
  let parts :=
    match resource with
    | Some r =>
        if negb (r =? "")%string then [r; api_version cfg; endpoint]
        else [api_endpoint cfg; api_version cfg; endpoint]
    | None => [api_endpoint cfg; api_version cfg; endpoint]
    end in
  ret (Str.join "/" parts).

(** *** [_state_manager] and [logout] *)

(** [self.state.update(x)] *)
Definition state_update (x : value) : Py unit :=
  fun s =>
    let (r, d) := dict_update (state s) x in (r, with_state d s).

(** The method first resolves the path of the session file (creating the
    default directory when there is no [credentials_path]); [file] is the
    file at that path.  A session file that holds a JSON document other
    than an object is handed to [dict.update] all the same. *)
Definition _state_manager (action : string) : Py unit :=
  cfg <- gets config ;;
  f <- gets file ;;
  let exists_ := match f with Some _ => true | None => false end in
  if (action =? "init")%string && Bool.eqb (cache_state cfg) true && exists_
  then
    match f with
    | Some b =>
        match json_loads b with
        | Some (VDict d) =>
            modify (fun s => with_state (Dict.update (state s) d) s)
        | Some x => state_update x
        | None => raise JSONDecodeError
        end
    | None => ret tt
    end
  else if (action =? "init")%string && Bool.eqb (cache_state cfg) false
          && exists_
  then modify (with_file None)
  else if (action =? "init")%string && Bool.eqb (cache_state cfg) true
          && Bool.eqb exists_ false
  then print "Their is no state file to load, will use default state." []
  else if (action =? "save")%string && cache_state cfg
  then modify (fun s => with_file (Some (json_dumps (VDict (state s)))) s)
  else ret tt.

Definition logout : Py unit := _state_manager "init".

(** [TDClient(client_id, redirect_uri, account_number, credentials_path)]:
    a new client object in the world of the session it is run in, a
    session whose [file] is the file at the path that [cpath] resolves
    to.  The attributes [authstate] and [streaming_session], which none
    of the methods below reads, are left out. *)
Definition __init__ (cid ruri : string) (acct cpath : option string)
  : Py unit :=
  modify (fun s =>
    {| config := default_config; state := default_state;
       client_id := cid; redirect_uri := ruri;
       account_number := acct; credentials_path := cpath;
       file := file s; clock := clock s; ticks := ticks s;
       net := net s; sent := sent s; stdout := stdout s |}) ;;
  _state_manager "init".

(** *** [_token_save] *)

(** [time.time() + int(...)] is a float addition; the lifetime, an
    [int], is converted first (without rounding below [2^53]). *)
Definition _token_save (token_dict : value) : Py bool :=
  has <- py_in "access_token" token_dict ;;
  if negb has then
    logout ;;
    ret false
  else
    a <- py_getitem token_dict "access_token" ;;
    state_set "access_token" a ;;
    r <- py_getitem token_dict "refresh_token" ;;
    state_set "refresh_token" r ;;
    t1 <- time_time ;;
    e1 <- py_getitem token_dict "expires_in" ;;
    n1 <- py_int e1 ;;
    let access_token_expire := round_double (t1 + inject_Z n1) in
    t2 <- time_time ;;
    e2 <- py_getitem token_dict "refresh_token_expires_in" ;;
    n2 <- py_int e2 ;;
    let refresh_token_expire := round_double (t2 + inject_Z n2) in
    state_set "access_token_expires_at" (VFloat access_token_expire) ;;
    state_set "refresh_token_expires_at" (VFloat refresh_token_expire) ;;
    state_set "loggedin" (VBool true) ;;
    ret true.


(** *** [_token_seconds] *)

(** The two branches of [_token_seconds] are the same code on two pairs
    of keys. *)
Definition seconds_left (token_key expires_key : string) : Py Z :=
  tok <- state_get token_key ;;
  expired <-
    (if negb (truthy tok) then ret true
     else
       now <- time_time ;;
       t <- state_get expires_key ;;
       float_ge now t) ;;
  if (expired : bool) then ret 0
  else
    t <- state_get expires_key ;;
    now <- time_time ;;
    d <- sub_float t now ;;
    ret (Qtrunc d).

Definition _token_seconds (token_type : string) : Py Z :=
  if (token_type =? "access_token")%string then
    seconds_left "access_token" "access_token_expires_at"
  else if (token_type =? "refresh_token")%string then
    seconds_left "refresh_token" "refresh_token_expires_at"
  else raise (UnboundLocalError "token_exp").

(** *** [_make_request] *)

(** The order identifier [_make_request] reads off the response headers,
    before it looks at the status code. *)
Definition order_id_of (response_headers : Headers) : Py string :=
  match header_get "Location" response_headers with
  | Some loc => or_raise IndexError (nth_error (Str.split "orders/" loc) 1)
  | None => ret ""
  end.

Definition headers_value (h : Headers) : value :=
  VDict (map (fun kv => (fst kv, VStr (snd kv))) h).

(** [_make_request] up to and including the HTTP call (lines 441-460 of
    the source).  The source calls [self._token_validation()] for every
    endpoint but the token endpoint; [token_validation] stands for that
    call, so that the cycle [_make_request] -> [_token_validation] ->
    [grab_refresh_token] -> [_make_request] can be tied below. *)
Definition send_request (token_validation : Py unit)
    (method endpoint : string) (mode : option string)
    (params data json : value) : Py Response :=
  url_ <- _api_endpoint endpoint None ;;
  headers0 <- _headers mode ;;
  cfg <- gets config ;;
  headers_ <-
    (if negb (endpoint =? token_endpoint cfg)%string then
       token_validation ;; ret headers0
     else ret (Dict.remove "Authorization" headers0)) ;;
  if str_in method ["get"; "post"; "put"; "delete"; "patch"] then
    requests_call
      {| req_method := method; req_url := url_; req_headers := headers_;
         req_params := params; req_data := data; req_json := json |}
  else raise (UnboundLocalError "response").

(** The dictionary [_make_request] returns when [order_details] is set. *)
Definition response_dict (response : Response) (order_id : string)
  : value :=
  VDict [ ("order_id", VStr order_id);
          ("headers", headers_value (headers response));
          ("content", VStr (content response));
          ("status_code", VInt (status_code response));
          ("request_body", request_body response);
          ("request_method", VStr (request_method response)) ].

(** [_make_request] from the response on (lines 462-501): the order
    identifier, then the status-code policy. *)
Definition classify (response : Response) (order_details : bool)
  : Py value :=
  let status := status_code response in
  let response_headers := headers response in
  order_id <- order_id_of response_headers ;;
  if (status =? 200) || (status =? 201) then
    if order_details then
      ret (response_dict response order_id)
    else
      ct <- or_raise (KeyError "content-type")
              (header_get "Content-Type" response_headers) ;;
      if str_in ct ["application/json;charset=UTF-8"; "application/json"]
      then or_raise JSONDecodeError (body_json response)
      else ret VNone
  else if int_in status [401; 400; 403; 415; 500] then
    print (Str.times "-" 80) [] ;;
    print "BAD REQUEST - STATUS CODE: {}" [OInt status] ;;
    print "RESPONSE URL: {}" [OStr (url response)] ;;
    print "RESPONSE HEADERS: {}" [OHeaders (headers response)] ;;
    print "RESPONSE PARAMS: {}" [OValue (links response)] ;;
    print "RESPONSE TEXT: {}" [OStr (text response)] ;;
    print (Str.times "-" 80) [] ;;
    ret VNone
  else ret VNone.

Definition _make_request_body (token_validation : Py unit)
    (method endpoint : string) (mode : option string)
    (params data json : value) (order_details : bool) : Py value :=
  response <- send_request token_validation method endpoint mode
                params data json ;;
  classify response order_details.

(** *** [grab_refresh_token], [_token_validation], [_silent_sso] *)

Definition grab_refresh_token_with
    (make_request :
       string -> string -> option string -> value -> value -> value ->
       bool -> Py value) : Py bool :=
  cid <- gets client_id ;;
  rtok <- state_get "refresh_token" ;;
  let data :=
    VDict [ ("client_id", VStr cid);
            ("grant_type", VStr "refresh_token");
            ("access_type", VStr "offline");
            ("refresh_token", rtok) ] in
  cfg <- gets config ;;
  token_response <-
    make_request "post" (token_endpoint cfg) (Some "form") VNone data VNone
      false ;;
  _token_save token_response ;;
  _state_manager "save" ;;
  ret true.

(** The call [grab_refresh_token] makes targets the token endpoint, on
    which [_make_request] skips the token validation: the validation hook
    of the inner call is never run (lemma [grab_refresh_token_eq]). *)
Definition grab_refresh_token : Py bool :=
  grab_refresh_token_with (_make_request_body (ret tt)).

Definition _token_validation (nseconds : Z) : Py unit :=
  secs <- _token_seconds "access_token" ;;
  cfg <- gets config ;;
  if (secs <? nseconds) && refresh_enabled cfg then
    grab_refresh_token ;; ret tt
  else ret tt.

Definition _make_request :
    string -> string -> option string -> value -> value -> value ->
    bool -> Py value :=
  _make_request_body (_token_validation 5).

Definition _silent_sso : Py bool :=
  a <- _token_seconds "access_token" ;;
  if 0 <? a then ret true
  else
    r <- _token_seconds "refresh_token" ;;
    if r <=? 0 then ret false
    else
      tok <- state_get "refresh_token" ;;
      if truthy tok then
        ok <- grab_refresh_token ;;
        if (ok : bool) then ret true else ret false
      else ret false.

End Client.

(** ** [_validate_arguments] *)

Section Validator.

(** [td.fields.ENDPOINT_ARGUMENTS]: endpoint name -> parameter name ->
    permitted values.  The validator is modelled over any such table. *)
Variable ENDPOINT_ARGUMENTS : list (string * list (string * list string)).

(** [message.format(x)] for the validator's message. *)
Definition validation_message (x : string) : string :=
  nl ++ "The argument is not valid, please choose a valid argument: "
     ++ x ++ nl.

(** [argument in arguments] for a list of strings. *)
Definition argument_in (arguments : list string) (argument : value) : bool :=
  match argument with
  | VStr a => str_in a arguments
  | _ => false
  end.

(** The values a [for] loop over [v] yields; [None] when [v] cannot be
    iterated. *)
Definition py_iter (v : value) : option (list value) :=
  match v with
  | VList l => Some l
  | VDict d => Some (map (fun kv => VStr (fst kv)) d)
  | _ => None
  end.

Definition _validate_arguments (endpoint parameter_name : string)
    (parameter_argument : value) : res bool :=
  match lookup endpoint ENDPOINT_ARGUMENTS with
  | None => Raise (KeyError endpoint)
  | Some parameters =>
      match lookup parameter_name parameters with
      | None => Raise (KeyError parameter_name)
      | Some arguments =>
          let normalized :=
            match parameter_argument with
            | VStr s => Some [VStr s]
            | v => py_iter v
            end in
          match normalized with
          | None => Raise TypeError
          | Some l =>
              let validation_result := map (argument_in arguments) l in
              if existsb negb validation_result
              then Raise (ValueError
                            (validation_message (Str.join " ," arguments)))
              else Ok true
          end
      end
  end.

End Validator.

(** Modelled from the spec: the entry of [ENDPOINT_ARGUMENTS] for the
    [markets] parameter of [get_market_hours], whose permitted values the
    specification lists as EQUITY, OPTION, FUTURE, BOND, FOREX. *)
Definition market_hours_arguments
  : list (string * list (string * list string)) :=
  [ ("get_market_hours",
     [ ("markets", ["EQUITY"; "OPTION"; "FUTURE"; "BOND"; "FOREX"]) ]) ].

(** ** [WatchlistItem] *)

Module WatchlistItem.
Section Item.

Context {rt : Runtime}.

(** The object ([argument_types], [query_parameters]) and what it has
    printed. *)
Record Item : Type := mkItem {
  argument_types : list (string * list string);
  query_parameters : pydict;
  stdout : list Printed
}.

Definition with_query_parameters (q : pydict) (i : Item) : Item :=
  {| argument_types := argument_types i; query_parameters := q;
     stdout := stdout i |}.

Definition print (tpl : string) (a : list pyobj) : M Item unit :=
  modify (fun i =>
    {| argument_types := argument_types i;
       query_parameters := query_parameters i;
       stdout := stdout i ++ [mkPrinted tpl a] |}).

Definition default_argument_types : list (string * list string) :=
  [ ("assetType",
     ["EQUITY"; "OPTION"; "MUTUAL_FUND"; "FIXED_INCOME"; "INDEX"]) ].

Definition default_query_parameters : pydict :=
  [ ("quantity", VInt 0);
    ("averagePrice", VFloat 0);
    ("commission", VFloat 0);
    ("purchasedDate", VNone);
    ("symbol", VNone);
    ("assetType", VNone) ].

(** The loop of [validate_watchlist] over [keyword_args.items()]. *)
Fixpoint validate_items (items : pydict) : M Item unit :=
  match items with
  | [] => ret tt
  | (key, v) :: rest =>
      types <- gets argument_types ;;
      match lookup key types with
      | Some allowed =>
          if negb (match v with VStr a => str_in a allowed | _ => false end)
          then
            print (nl ++ "For the " ++ dq ++ "{}" ++ dq
                      ++ " argument you specified " ++ dq ++ "{}" ++ dq
                      ++ ", this is an invalid value. Please use one of "
                      ++ "the following value values: {} " ++ nl)
                  [OStr key; OValue v; OStr (Str.join ", " allowed)] ;;
            raise (KeyError "Invalid Value.")
          else validate_items rest
      | None => validate_items rest
      end
  end.

Definition validate_watchlist (keyword_args : pydict) : M Item bool :=
  validate_items keyword_args ;;
  ret true.

(** The first loop of [__init__], over the names in [kwargs]. *)
Fixpoint check_names (keys : list string) : M Item unit :=
  match keys with
  | [] => ret tt
  | key :: rest =>
      q <- gets query_parameters ;;
      if negb (Dict.mem key q) then
        print "WARNING: The argument, {} is an unkown argument." [OStr key] ;;
        raise (KeyError "Invalid Argument Name.")
      else check_names rest
  end.

(** [WatchlistItem(kwargs)], with the keyword arguments as a dictionary,
    run on the object under construction. *)
Definition __init__ (kwargs : pydict) : M Item unit :=
  modify (fun i =>
    {| argument_types := default_argument_types;
       query_parameters := default_query_parameters;
       stdout := stdout i |}) ;;
  check_names (map fst kwargs) ;;
  ok <- validate_watchlist kwargs ;;
  if (ok : bool) then
    modify (fun i =>
      with_query_parameters (Dict.update (query_parameters i) kwargs) i)
  else ret tt.

(** [create_watchlist_json]: [current_params] is the object's own
    dictionary, not a copy, so the deletions and the new key stay on the
    object.  Every value of the model can be serialised, so [json.dumps]
    returns. *)
Definition create_watchlist_json : M Item bytes :=
  current_params <- gets query_parameters ;;
  symbol <- or_raise (KeyError "symbol") (Dict.get "symbol" current_params) ;;
  asset <- or_raise (KeyError "assetType")
             (Dict.get "assetType" current_params) ;;
  let instrument_dict := VDict [("symbol", symbol); ("assetType", asset)] in
  modify (fun i =>
    with_query_parameters (Dict.remove "symbol" (query_parameters i)) i) ;;
  modify (fun i =>
    with_query_parameters (Dict.remove "assetType" (query_parameters i)) i) ;;
  modify (fun i =>
    with_query_parameters
      (Dict.set "instrument" instrument_dict (query_parameters i)) i) ;;
  q <- gets query_parameters ;;
  ret (json_dumps (VDict q)).

End Item.
End WatchlistItem.

(** ** The endpoint methods *)

Section Endpoints.

Context {rt : Runtime}.

(** [td.fields.ENDPOINT_ARGUMENTS], as for [_validate_arguments], and
    [td.fields.VALID_CHART_VALUES]: frequency type -> period type ->
    permitted periods, which are whole numbers.  Neither table is defined in
    the client; the methods are modelled over any such tables. *)
Variable ENDPOINT_ARGUMENTS : list (string * list (string * list string)).
Variable VALID_CHART_VALUES : list (string * list (string * list Z)).

(** [urllib.parse.parse_qs]: the parameters of a query string, in their
    order, each with the list of its values. *)
Variable parse_qs : value -> res (list (string * list string)).

(** A call that reads and writes nothing of the session. *)
Definition lift {A : Type} (r : res A) : Py A := fun s => (r, s).

(** [self._validate_arguments(endpoint, parameter_name, parameter_argument)] *)
Definition validate (endpoint parameter_name : string)
    (parameter_argument : value) : Py bool :=
  lift (_validate_arguments ENDPOINT_ARGUMENTS endpoint parameter_name
          parameter_argument).

(** The characters of a string, as iterating over it yields them. *)
Fixpoint chars (s : string) : list string :=
  match s with
  | EmptyString => []
  | String c s' => String c EmptyString :: chars s'
  end.

(** The items of a list when all of them are strings. *)
Fixpoint strings_of (l : list value) : option (list string) :=
  match l with
  | [] => Some []
  | VStr s :: l' =>
      match strings_of l' with
      | Some ss => Some (s :: ss)
      | None => None
      end
  | _ :: _ => None
  end.

(** [','.join(parameter_list)]: [join] iterates over its argument, which
    may be a list, a string (its characters) or a dictionary (its keys),
    and raises [TypeError] on an item that is not a string. *)
Definition _prepare_arguments_list (parameter_list : value) : Py string :=
  match parameter_list with
  | VStr s => ret (Str.join "," (chars s))
  | VList l =>
      match strings_of l with
      | Some ss => ret (Str.join "," ss)
      | None => raise TypeError
      end
  | VDict d => ret (Str.join "," (map fst d))
  | _ => raise TypeError
  end.

Definition get_quotes (instruments : value) : Py value :=
  instruments_ <- _prepare_arguments_list instruments ;;
  cid <- gets client_id ;;
  let params :=
    VDict [("apikey", VStr cid); ("symbol", VStr instruments_)] in
  _make_request "get" "marketdata/quotes" None params VNone VNone false.

(** [v in l] for a list of whole numbers: [True], [1] and [1.0] are equal
    in Python, and nothing but a number equals a number. *)
Definition num_in (v : value) (l : list Z) : bool :=
  match as_number v with
  | Some q => existsb (fun z => Qeq_bool q (inject_Z z)) l
  | None => false
  end.

(** The [try] block of [get_price_history]: whether
    [period in VALID_CHART_VALUES[frequency_type][period_type]] evaluates
    to true.  A missing key and a period that is not listed both leave the
    block by an exception, which the bare [except] catches. *)
Definition period_valid (frequency_type period_type period : value) : bool :=
  match frequency_type, period_type with
  | VStr ft, VStr pt =>
      match lookup ft VALID_CHART_VALUES with
      | Some types =>
          match lookup pt types with
          | Some periods => num_in period periods
          | None => false
          end
      | None => false
      end
  | _, _ => false
  end.

(** [v == s] for a string [s] *)
Definition is_str (v : value) (s : string) : bool :=
  match v with
  | VStr x => (x =? s)%string
  | _ => false
  end.

Definition get_price_history (symbol : string)
    (period_type period start_date end_date frequency_type frequency
       extended_hours : value) : Py value :=
  (if truthy start_date && truthy end_date && truthy period then
     raise (ValueError "Cannot have Period with start date and end date")
   else if negb (truthy start_date) && negb (truthy end_date)
           && truthy period then
     (if period_valid frequency_type period_type period then ret tt
      else raise (KeyError ("Invalid Frequency Type or Period Type you "
                            ++ "passed through is not valid"))) ;;
     if is_str frequency_type "minute"
        && negb (num_in frequency [1; 5; 10; 15; 30])
     then raise (ValueError "Invalid Minute Frequency, must be 1,5,10,15,30")
     else ret tt
   else ret tt) ;;
  cid <- gets client_id ;;
  let params :=
    VDict [ ("apikey", VStr cid);
            ("period", period);
            ("periodType", period_type);
            ("startDate", start_date);
            ("endDate", end_date);
            ("frequency", frequency);
            ("frequencyType", frequency_type);
            ("needExtendedHoursData", extended_hours) ] in
  let endpoint := "marketdata/" ++ symbol ++ "/pricehistory" in
  _make_request "get" endpoint None params VNone VNone false.

Definition search_instruments (symbol projection : value) : Py value :=
  validate "search_instruments" "projection" projection ;;
  cid <- gets client_id ;;
  let params :=
    VDict [ ("apikey", VStr cid); ("symbol", symbol);
            ("projection", projection) ] in
  _make_request "get" "instruments" None params VNone VNone false.

Definition get_market_hours (markets date : value) : Py value :=
  validate "get_market_hours" "markets" markets ;;
  markets_ <- _prepare_arguments_list markets ;;
  cid <- gets client_id ;;
  let params :=
    VDict [ ("apikey", VStr cid); ("markets", VStr markets_);
            ("date", date) ] in
  _make_request "get" "marketdata/hours" None params VNone VNone false.

(** The loop of [get_movers] over [local_args.items()]. *)
Fixpoint validate_each (endpoint : string) (items : list (string * value))
  : Py unit :=
  match items with
  | [] => ret tt
  | (key, v) :: rest =>
      validate endpoint key v ;;
      validate_each endpoint rest
  end.

(** [locals()] at the top of the method holds [self] and the three
    arguments, in the order of the signature. *)
Definition get_movers (market direction change : string) : Py value :=
  let local_args :=
    [ ("market", VStr market); ("direction", VStr direction);
      ("change", VStr change) ] in
  validate_each "get_movers" local_args ;;
  cid <- gets client_id ;;
  let params :=
    VDict [ ("apikey", VStr cid); ("direction", VStr direction);
            ("change", VStr change) ] in
  let endpoint := "marketdata/" ++ market ++ "/movers" in
  _make_request "get" endpoint None params VNone VNone false.

(** The transaction types [get_transactions] accepts. *)
Definition transaction_types : list string :=
  [ "ALL"; "TRADE"; "BUY_ONLY"; "SELL_ONLY"; "CASH_IN_OR_CASH_OUT";
    "CHECKING"; "DIVIDEND"; "INTEREST"; "OTHER"; "ADVISOR_FEES" ].

(** [v != None] *)
Definition is_not_none (v : value) : bool :=
  match v with
  | VNone => false
  | _ => true
  end.

(** [get_transactions]: with a transaction identifier the method rebinds
    [account] and [end_date] to [None], and [transaction_type] and
    [start_date] to the one-element tuple [(None,)] (the assignments end
    in a comma); the tuple is written as a one-element list. *)
Definition get_transactions
    (account transaction_type symbol start_date end_date transaction_id
       : value) : Py value :=
  args_ <-
    (if is_not_none transaction_id then
       ret (VNone, VList [VNone], VList [VNone], VNone)
     else if negb (argument_in transaction_types transaction_type) then
       print "The type of transaction type you specified is not valid." [] ;;
       raise (ValueError "Bad Input")
     else ret (account, transaction_type, start_date, end_date)) ;;
  let '(account_, transaction_type_, start_date_, end_date_) := args_ in
  if truthy transaction_id then
    let endpoint :=
      "accounts/" ++ py_str account_ ++ "/transactions/"
        ++ py_str transaction_id in
    _make_request "get" endpoint None VNone VNone VNone false
  else
    let params :=
      VDict [ ("type", transaction_type_);
              ("symbol", symbol);
              ("startDate", start_date_);
              ("endDate", end_date_) ] in
    let endpoint := "/accounts/" ++ py_str account_ ++ "/transactions" in
    _make_request "get" endpoint None params VNone VNone false.

Definition cancel_order (account order_id : string) : Py value :=
  let endpoint := "accounts/" ++ account ++ "/orders/" ++ order_id in
  _make_request "delete" endpoint None VNone VNone VNone true.

(** [create_saved_order]: the argument is named [saved_order], and both
    branches of the [isinstance] test read the local name [order] before
    anything is assigned to it.  [is_order] tells whether the payload is an
    [Order] object. *)
Definition create_saved_order (account : string) (is_order : bool)
    (saved_order : value) : Py value :=
  order <-
    (if is_order then raise (UnboundLocalError "order")
     else raise (UnboundLocalError "order")) ;;
  let endpoint := "accounts/" ++ account ++ "/savedorders" in
  _make_request "post" endpoint (Some "json") VNone order VNone true.

(** [grab_access_token]: [list(url_dict.values())[0][0]] is the first
    value of the first parameter of the pasted redirect URL. *)
Definition grab_access_token : Py bool :=
  redirect_code <- state_get "redirect_code" ;;
  url_dict <- lift (parse_qs redirect_code) ;;
  first_values <- or_raise IndexError (nth_error (map snd url_dict) 0) ;;
  url_code <- or_raise IndexError (nth_error first_values 0) ;;
  cid <- gets client_id ;;
  ruri <- gets redirect_uri ;;
  let data :=
    VDict [ ("grant_type", VStr "authorization_code");
            ("client_id", VStr (cid ++ "@AMER.OAUTHAP"));
            ("access_type", VStr "offline");
            ("code", VStr url_code);
            ("redirect_uri", VStr ruri) ] in
  cfg <- gets config ;;
  token_response <-
    _make_request "post" (token_endpoint cfg) (Some "form") VNone data VNone
      false ;;
  _token_save token_response ;;
  _state_manager "save" ;;
  ret true.

End Endpoints.

(** The two conditions [WatchlistItem.__init__] puts on its keyword
    arguments: every name is one of the six parameters, and every value
    given for [assetType] is one of the five asset types. *)
Definition names_known (kwargs : pydict) : bool :=
  forallb (fun k => Dict.mem k WatchlistItem.default_query_parameters)
    (map fst kwargs).

Definition values_allowed (kwargs : pydict) : bool :=
  forallb
    (fun kv =>
       negb (fst kv =? "assetType")%string
       || match snd kv with
          | VStr a =>
              str_in a ["EQUITY"; "OPTION"; "MUTUAL_FUND"; "FIXED_INCOME";
                        "INDEX"]
          | _ => false
          end) kwargs.

(** ** Concrete sessions *)

(** A runtime to run the model on: a file holds the written document
    itself, [str] renders [None], booleans, integers and strings, and [int]
    reads signed decimal numerals. *)
Definition plain_runtime : Runtime :=
  {| bytes := value;
     json_dumps := fun v => v;
     json_loads := fun b => Some b;
     py_str := fun v =>
       match v with
       | VNone => "None"
       | VBool true => "True"
       | VBool false => "False"
       | VInt z => NilZero.string_of_int (Z.to_int z)
       | VStr s => s
       | _ => "..."
       end;
     int_of_str := fun s => option_map Z.of_int (NilZero.int_of_string s) |}.

Definition json_headers : Headers := [("Content-Type", "application/json")].

(** A response with a JSON body. *)
Definition json_response (status : Z) (body : value) : Response :=
  {| status_code := status; headers := json_headers; content := "";
     text := ""; url := "https://api.tdameritrade.com/v1/oauth2/token";
     links := VDict []; body_json := Some body; request_body := VNone;
     request_method := "POST" |}.

(** A response without a body, with the given headers. *)
Definition empty_response (status : Z) (h : Headers) : Response :=
  {| status_code := status; headers := h; content := ""; text := "";
     url := "https://api.tdameritrade.com/v1/accounts/ACCT123/orders/555";
     links := VDict []; body_json := None; request_body := VNone;
     request_method := "DELETE" |}.

(** The state of a client that logged in with an access token valid until
    second 2800 and a refresh token valid until second 7777000. *)
Definition logged_in_state : pydict :=
  [ ("access_token", VStr "A0");
    ("refresh_token", VStr "R0");
    ("access_token_expires_at", VFloat 2800);
    ("refresh_token_expires_at", VFloat 7777000);
    ("authorization_url", VNone);
    ("redirect_code", VNone);
    ("loggedin", VBool true) ].

(** A session with the default configuration, no session file, the clock
    standing at [now] and a server that answers every call with [r]. *)
Definition session_at (st : pydict) (now : Q) (r : Response)
  : Session (rt := plain_runtime) :=
  {| config := default_config; state := st; client_id := "CLIENT";
     redirect_uri := "https://localhost"; account_number := None;
     credentials_path := None; file := None; clock := fun _ => now;
     ticks := 0; net := fun _ => r; sent := []; stdout := [] |}.


(** A logged-in client whose clock reads second 2799.5 first and second
    2802.5 from then on: the access token expires between the two. *)
Definition jumping_session : Session (rt := plain_runtime) :=
  {| config := default_config; state := logged_in_state;
     client_id := "CLIENT"; redirect_uri := "https://localhost";
     account_number := None; credentials_path := None; file := None;
     clock := fun n => match n with O => 5599 # 2 | S _ => 5605 # 2 end;
     ticks := 0; net := fun _ => json_response 200 VNone;
     sent := []; stdout := [] |}.

(** A new client over a session file that holds the document [doc]. *)
Definition init_over (doc : value)
  : res unit * Session (rt := plain_runtime) :=
  __init__ "CLIENT" "https://localhost" None None
    (with_file (Some (doc : bytes (Runtime := plain_runtime)))
       (session_at [] 1000 (json_response 200 VNone))).

(** A token response without an access token. *)
Definition error_token_response : value :=
  VDict [("error", VStr "invalid_grant")].

(** The token response of the specification's example. *)
Definition good_token_response : value :=
  VDict [ ("access_token", VStr "A");
          ("refresh_token", VStr "R");
          ("expires_in", VInt 1800);
          ("refresh_token_expires_in", VInt 7776000) ].

(** [Location] headers: of the specification's example, one with two
    ["orders/"] that ends in ["orders/555"], and two without ["orders/"]. *)
Definition location_555 : string :=
  "https://api.tdameritrade.com/v1/accounts/ACCT123/orders/555".

Definition location_two_orders : string :=
  "https://api.tdameritrade.com/v1/accounts/ACCT123/orders/1/orders/555".

Definition location_watchlist : string :=
  "https://api.tdameritrade.com/v1/accounts/ACCT123/watchlists/7".

Definition location_auth : string := "https://auth.tdameritrade.com/auth".

(** The dispatch of the specification's example: cancelling order 555. *)
Definition cancel_order_555 (s : Session (rt := plain_runtime))
  : res value * Session (rt := plain_runtime) :=
  _make_request "delete" "accounts/ACCT123/orders/555" None
    VNone VNone VNone true s.

(** A session whose server answers with [status] and a [Location] header. *)
Definition session_with_location (status : Z) (loc : string)
  : Session (rt := plain_runtime) :=
  session_at logged_in_state 1000 (empty_response status [("Location", loc)]).

(** The keyword arguments of [WatchlistItem(symbol='AAPL',
    assetType='EQUITY')], and the object before its construction. *)
Definition watchlist_kwargs : pydict :=
  [("symbol", VStr "AAPL"); ("assetType", VStr "EQUITY")].

Definition blank_item : WatchlistItem.Item :=
  {| WatchlistItem.argument_types := [];
     WatchlistItem.query_parameters := [];
     WatchlistItem.stdout := [] |}.

(** A client whose access token has expired (the clock stands at 3000),
    facing a server that answers every call with the token response of
    the example. *)
Definition expired_session : Session (rt := plain_runtime) :=
  session_at logged_in_state 3000 (json_response 200 good_token_response).

(** A logged-in client at second 1000, facing a server that answers every
    call with [r]. *)
Definition fresh_session (r : Response) : Session (rt := plain_runtime) :=
  session_at logged_in_state 1000 r.

(** A 200 response whose JSON body is announced with another spelling of
    the content type. *)
Definition charset_response : Response :=
  {| status_code := 200;
     headers := [("Content-Type", "application/json; charset=utf-8")];
     content := ""; text := "";
     url := "https://api.tdameritrade.com/v1/marketdata/quotes";
     links := VDict [];
     body_json := Some (VDict [("symbol", VStr "MSFT")]);
     request_body := VNone; request_method := "GET" |}.

(** A validation table with the values that the specification and the
    docstrings of [get_movers] and [search_instruments] name. *)
Definition documented_arguments
  : list (string * list (string * list string)) :=
  [ ("get_market_hours",
     [ ("markets", ["EQUITY"; "OPTION"; "FUTURE"; "BOND"; "FOREX"]) ]);
    ("get_movers",
     [ ("market", ["$DJI"; "$COMPX"; "$SPX.X"]);
       ("direction", ["up"; "down"]);
       ("change", ["percent"; "value"]) ]);
    ("search_instruments",
     [ ("projection",
        [ "symbol-search"; "symbol-regex"; "desc-search"; "desc-regex";
          "fundamental" ]) ]) ].

(** A chart table that permits 1, 2, 3, 4, 5 and 10 days of minute
    candles. *)
Definition minute_chart : list (string * list (string * list Z)) :=
  [ ("minute", [ ("day", [1; 2; 3; 4; 5; 10]) ]) ].

(** The redirect URL a user pastes after authorizing, and what [parse_qs]
    makes of it (the text is not cut at the question mark). *)
Definition pasted_url : string := "https://localhost/?code=XYZ".

Definition parse_pasted (v : value) : res (list (string * list string)) :=
  match v with
  | VStr u =>
      if (u =? pasted_url)%string
      then Ok [("https://localhost/?code", ["XYZ"])]
      else Ok []
  | _ => Ok []
  end.

Definition pasted_session : Session (rt := plain_runtime) :=
  session_at (Dict.set "redirect_code" (VStr pasted_url) default_state) 1000
    (json_response 200 good_token_response).

(** A session whose session file holds a saved access token. *)
Definition session_with_file : Session (rt := plain_runtime) :=
  {| config := default_config; state := logged_in_state;
     client_id := "OLD"; redirect_uri := "https://old"; account_number := None;
     credentials_path := None;
     file := Some (VDict [("access_token", VStr "A1")]
                   : bytes (Runtime := plain_runtime));
     clock := fun _ => 1000%Q; ticks := 0;
     net := fun _ => json_response 200 good_token_response;
     sent := []; stdout := [] |}.

(** * Properties *)

(** ** Facts about strings and [split] *)

Module StrFacts.
Import Str.

Lemma append_nil_r (s : string) : (s ++ "")%string = s.
Proof. induction s as [|c s IH]; simpl; [reflexivity | now rewrite IH]. Qed.


Lemma starts_with_app (sep r : string) : starts_with sep (sep ++ r) = true.
Proof.
  induction sep as [|c sep IH]; simpl; [reflexivity|].
  now rewrite Ascii.eqb_refl.
Qed.

Lemma split_from_skip (sep x r : string) :
  split_from sep (String.length x) (x ++ r) = split_from sep 0 r.
Proof.
  induction x as [|c x IH]; simpl; [reflexivity | exact IH].
Qed.

(** A separator at the head of the text closes an empty piece. *)
Lemma split_from_sep (c : ascii) (sep' r : string) :
  split_from (String c sep') 0 (String c sep' ++ r)
  = (EmptyString, split (String c sep') r).
Proof.
  set (sep := String c sep').
  assert (E : (sep ++ r)%string = String c (sep' ++ r)) by reflexivity.
  rewrite E. cbn [split_from]. rewrite <- E, starts_with_app.
  assert (L : (String.length sep - 1)%nat = String.length sep')
    by (subst sep; simpl; lia).
  rewrite L, split_from_skip. reflexivity.
Qed.

(** A text without the separator is one piece. *)
Lemma split_from_none (sep s : string) :
  contains sep s = false -> split_from sep 0 s = (s, []).
Proof.
  induction s as [|c s IH]; intros H.
  - reflexivity.
  - cbn [contains] in H. apply orb_false_elim in H as [H1 H2].
    cbn [split_from]. rewrite H1, (IH H2). reflexivity.
Qed.

(** [early sep p rest]: the separator matches at some position of [p] in
    [p ++ rest]. *)
Fixpoint early (sep p rest : string) : bool :=
  match p with
  | EmptyString => false
  | String c p' => starts_with sep (p ++ rest) || early sep p' rest
  end.

Lemma split_from_prefix (c : ascii) (sep' p r : string) :
  early (String c sep') p (String c sep' ++ r) = false ->
  split_from (String c sep') 0 (p ++ String c sep' ++ r)
  = (p, split (String c sep') r).
Proof.
  induction p as [|a p IH]; intros H.
  - apply split_from_sep.
  - cbn [early] in H. apply orb_false_elim in H as [H1 H2].
    change ((String a p ++ String c sep' ++ r)%string)
      with (String a (p ++ String c sep' ++ r)) in *.
    cbn [split_from]. rewrite H1, (IH H2). reflexivity.
Qed.

(** ["orders/"] does not overlap itself: a match that starts inside [p] in
    [p ++ "orders/" ++ r] lies within [p]. *)
Lemma orders_no_overlap (p r : string) :
  starts_with "orders/" (p ++ "orders/" ++ r) = true ->
  p = EmptyString \/ starts_with "orders/" p = true.
Proof.
  intros H. destruct p as [|c1 p]; [now left | right].
  simpl in H |- *.
  repeat
    (apply andb_prop in H; destruct H as [H0 H]; rewrite H0; clear H0; simpl;
     destruct p as [|? p]; simpl in H |- *; [discriminate H|]).
  apply andb_prop in H; destruct H as [H0 H]; rewrite H0. reflexivity.
Qed.

Lemma orders_not_early (p r : string) :
  contains "orders/" p = false -> early "orders/" p ("orders/" ++ r) = false.
Proof.
  induction p as [|c p IH]; intros H; [reflexivity|].
  cbn [contains] in H. apply orb_false_elim in H as [H1 H2].
  cbn [early]. rewrite (IH H2), orb_false_r.
  destruct (starts_with "orders/" (String c p ++ "orders/" ++ r)) eqn:E;
    [|reflexivity].
  apply orders_no_overlap in E as [E | E]; [discriminate E | congruence].
Qed.

(** What [split] does to a text whose first ["orders/"] comes after [p]. *)
Lemma split_orders (p r : string) :
  contains "orders/" p = false ->
  split "orders/" (p ++ "orders/" ++ r) = p :: split "orders/" r.
Proof.
  intros H. unfold split at 1.
  rewrite (split_from_prefix "o" "rders/" p r (orders_not_early p r H)).
  reflexivity.
Qed.

Lemma starts_with_inv (sep s : string) :
  starts_with sep s = true -> exists tail, s = (sep ++ tail)%string.
Proof.
  revert s. induction sep as [|a sep IH]; intros s H.
  - now exists s.
  - destruct s as [|b s]; [discriminate H|].
    cbn [starts_with] in H. apply andb_prop in H as [Hab Hs].
    apply Ascii.eqb_eq in Hab. subst b.
    destruct (IH s Hs) as [tail ->]. now exists tail.
Qed.

Lemma starts_with_app_l (sep x y : string) :
  starts_with sep x = true -> starts_with sep (x ++ y) = true.
Proof.
  revert x. induction sep as [|a sep IH]; intros x H; [reflexivity|].
  destruct x as [|b x]; [discriminate H|].
  cbn [starts_with] in H. apply andb_prop in H as [Hab Hs].
  change ((String b x ++ y)%string) with (String b (x ++ y)).
  cbn [starts_with]. now rewrite Hab, (IH x Hs).
Qed.

(** A text that contains the separator splits at its first occurrence. *)
Lemma contains_first (a : ascii) (sep' s : string) :
  contains (String a sep') s = true ->
  exists p tail,
    s = (p ++ String a sep' ++ tail)%string
    /\ contains (String a sep') p = false.
Proof.
  set (sep := String a sep').
  induction s as [|c s IH]; intros H; [discriminate H|].
  cbn [contains] in H.
  destruct (starts_with sep (String c s)) eqn:E.
  - destruct (starts_with_inv sep _ E) as [tail Et].
    exists EmptyString, tail. split; [exact Et | reflexivity].
  - cbn [orb] in H. destruct (IH H) as (p & tail & Es & Hp).
    exists (String c p), tail. split; [now rewrite Es|].
    cbn [contains]. rewrite Hp, orb_false_r.
    destruct (starts_with sep (String c p)) eqn:E'; [|reflexivity].
    apply (starts_with_app_l sep _ (sep ++ tail)) in E'.
    change ((String c p ++ sep ++ tail)%string)
      with (String c (p ++ sep ++ tail)) in E'.
    rewrite <- Es in E'. congruence.
Qed.

Lemma split_single (sep s : string) :
  contains sep s = false -> split sep s = [s].
Proof.
  intros H. unfold split. now rewrite (split_from_none sep s H).
Qed.


End StrFacts.

(** ** Facts about dictionaries *)

Module DictFacts.

Lemma get_set_same (k : string) (v : value) (d : pydict) :
  Dict.get k (Dict.set k v d) = Some v.
Proof.
  induction d as [|[k' v'] d IH]; simpl.
  - now rewrite String.eqb_refl.
  - destruct (k' =? k)%string eqn:E; simpl; rewrite E; [reflexivity | exact IH].
Qed.

Lemma get_set_other (k k' : string) (v : value) (d : pydict) :
  (k' =? k)%string = false ->
  Dict.get k (Dict.set k' v d) = Dict.get k d.
Proof.
  intros N. induction d as [|[k0 v0] d IH]; simpl.
  - now rewrite N.
  - destruct (k0 =? k')%string eqn:E; simpl.
    + apply String.eqb_eq in E. subst k0. now rewrite N.
    + now rewrite IH.
Qed.

Lemma mem_set (k k' : string) (v : value) (d : pydict) :
  Dict.mem k d = true -> Dict.mem k (Dict.set k' v d) = true.
Proof.
  unfold Dict.mem. intros H.
  destruct (k' =? k)%string eqn:E.
  - apply String.eqb_eq in E. subst k'. now rewrite get_set_same.
  - now rewrite get_set_other.
Qed.

Lemma mem_update (k : string) (other d : pydict) :
  Dict.mem k d = true -> Dict.mem k (Dict.update d other) = true.
Proof.
  unfold Dict.update. revert d.
  induction other as [|[k' v'] other IH]; intros d H; simpl; [exact H|].
  apply IH. now apply mem_set.
Qed.

Lemma get_remove_same (k : string) (d : pydict) :
  Dict.get k (Dict.remove k d) = None.
Proof.
  unfold Dict.remove.
  induction d as [|[k' v'] d IH]; simpl; [reflexivity|].
  destruct (k' =? k)%string eqn:E; simpl; [exact IH | now rewrite E].
Qed.

Lemma get_remove_other (k k' : string) (d : pydict) :
  (k' =? k)%string = false ->
  Dict.get k (Dict.remove k' d) = Dict.get k d.
Proof.
  intros N. unfold Dict.remove.
  induction d as [|[k0 v0] d IH]; simpl; [reflexivity|].
  destruct (k0 =? k')%string eqn:E; simpl.
  - apply String.eqb_eq in E. subst k0. now rewrite N.
  - now rewrite IH.
Qed.



Lemma get_not_in (k : string) (d : pydict) :
  ~ In k (map fst d) -> Dict.get k d = None.
Proof.
  induction d as [|[k' v'] d IH]; simpl; intros H; [reflexivity|].
  destruct (k' =? k)%string eqn:E.
  - apply String.eqb_eq in E. exfalso. apply H. now left.
  - apply IH. intros Hin. apply H. now right.
Qed.

(** On a well-formed [other], [d.update(other)] reads as [other] where
    [other] has the key and as [d] elsewhere. *)
Lemma get_update (k : string) (other d : pydict) :
  wf other ->
  Dict.get k (Dict.update d other)
  = match Dict.get k other with
    | Some v => Some v
    | None => Dict.get k d
    end.
Proof.
  unfold Dict.update, wf. revert d.
  induction other as [|[k' v'] other IH]; intros d H; simpl; [reflexivity|].
  inversion H as [|? ? Hn Hd]; subst.
  rewrite (IH _ Hd).
  destruct (k' =? k)%string eqn:E.
  - apply String.eqb_eq in E. subst k'.
    rewrite (get_not_in k other Hn). apply get_set_same.
  - destruct (Dict.get k other); [reflexivity|].
    now apply get_set_other.
Qed.

End DictFacts.

(** ** Facts about float arithmetic *)


Lemma pow2_pos (e : Z) : (0 < pow2 e)%Q.
Proof.
  unfold pow2. destruct (0 <=? e) eqn:E.
  - apply Z.leb_le in E. change 0%Q with (inject_Z 0). rewrite <- Zlt_Qlt.
    now apply Z.pow_pos_nonneg.
  - apply Z.leb_gt in E. apply Qinv_lt_0_compat.
    change 0%Q with (inject_Z 0). rewrite <- Zlt_Qlt.
    apply Z.pow_pos_nonneg; lia.
Qed.







(** [int()] rounds towards zero, so it stays between whole bounds, and it
    does not depend on how the rational is written. *)
Lemma Qtrunc_opp (q : Q) : Qtrunc (- q) = - Qtrunc q.
Proof.
  destruct q as [n d]. unfold Qtrunc, Qopp. cbn [Qnum Qden].
  apply Z.quot_opp_l. discriminate.
Qed.






(** ** Facts about the monad *)

Lemma bind_ok {S A B} (c : M S A) (k : A -> M S B) (s s' : S) (a : A) :
  c s = (Ok a, s') -> bind c k s = k a s'.
Proof. intros H. unfold bind. now rewrite H. Qed.

Lemma bind_raise {S A B} (c : M S A) (k : A -> M S B) (s s' : S) (e : exn) :
  c s = (Raise e, s') -> bind c k s = (Raise e, s').
Proof. intros H. unfold bind. now rewrite H. Qed.

Lemma bind_gets {S A B} (f : S -> A) (k : A -> M S B) (s : S) :
  bind (gets f) k s = k (f s) s.
Proof. reflexivity. Qed.

Lemma bind_ret {S A B} (a : A) (k : A -> M S B) (s : S) :
  bind (ret a) k s = k a s.
Proof. reflexivity. Qed.

Lemma bind_modify {S B} (f : S -> S) (k : unit -> M S B) (s : S) :
  bind (modify f) k s = k tt (f s).
Proof. reflexivity. Qed.

Lemma bind_or_raise {S A B} (e : exn) (o : option A) (k : A -> M S B) (s : S) :
  bind (or_raise e o) k s
  = match o with Some a => k a s | None => (Raise e, s) end.
Proof. now destruct o. Qed.

Lemma bind_bind {S A B C} (c : M S A) (k1 : A -> M S B) (k2 : B -> M S C)
    (s : S) :
  bind (bind c k1) k2 s = bind c (fun a => bind (k1 a) k2) s.
Proof. unfold bind. now destruct (c s) as [[a|e] s']. Qed.

Lemma bind_cong {S A B} (c1 c2 : M S A) (k : A -> M S B) (s : S) :
  c1 s = c2 s -> bind c1 k s = bind c2 k s.
Proof. intros H. unfold bind. now rewrite H. Qed.

(** A handler that only passes the boolean on changes nothing. *)
Lemma bind_bool_ret {S} (c : M S bool) (s : S) :
  bind c (fun ok => if ok then ret true else ret false) s = c s.
Proof. unfold bind, ret. now destruct (c s) as [[[|]|e] s']. Qed.

Section Keeps.

Context {S X : Type} (f : S -> X).

Lemma keeps_ret {A} (a : A) : keeps f (ret a).
Proof. intros s. reflexivity. Qed.

Lemma keeps_raise {A} (e : exn) : keeps f (@raise S A e).
Proof. intros s. reflexivity. Qed.

Lemma keeps_gets {A} (g : S -> A) : keeps f (gets g).
Proof. intros s. reflexivity. Qed.

Lemma keeps_or_raise {A} (e : exn) (o : option A) : keeps f (or_raise e o).
Proof. destruct o; intros s; reflexivity. Qed.

Lemma keeps_modify (g : S -> S) :
  (forall s, f (g s) = f s) -> keeps f (modify g).
Proof. intros H s. apply H. Qed.

Lemma keeps_bind {A B} (c : M S A) (k : A -> M S B) :
  keeps f c -> (forall a, keeps f (k a)) -> keeps f (bind c k).
Proof.
  intros Hc Hk s. unfold bind. specialize (Hc s).
  destruct (c s) as [[a|e] s']; simpl in Hc |- *.
  - now rewrite (Hk a s').
  - exact Hc.
Qed.

End Keeps.

(** Splits a [keeps] goal along the structure of the computation. *)
Ltac keeps_step :=
  first
    [ apply keeps_ret
    | apply keeps_raise
    | apply keeps_gets
    | apply keeps_or_raise
    | apply keeps_bind; [|intro]
    | apply keeps_modify; intro; reflexivity
    | match goal with
      | |- keeps _ (if ?b then _ else _) => destruct b
      | |- keeps _ (match ?x with _ => _ end) => destruct x
      end ].

Section Properties.

Context {rt : Runtime}.

(** *** Running the primitives *)

Lemma bind_state_get {B} (key : string) (k : value -> Py B) (s : Session) :
  bind (state_get key) k s
  = match Dict.get key (state s) with
    | Some v => k v s
    | None => (Raise (KeyError key), s)
    end.
Proof.
  unfold state_get, bind, gets, or_raise.
  now destruct (Dict.get key (state s)).
Qed.


Lemma bind_time_time {B} (k : Q -> Py B) (s : Session) :
  bind time_time k s = k (clock s (ticks s)) (with_ticks (S (ticks s)) s).
Proof. reflexivity. Qed.

Lemma bind_float_ge {B} (x : Q) (v : value) (k : bool -> Py B)
    (s : Session) :
  bind (float_ge x v) k s
  = match as_number v with
    | Some y => k (Qle_bool y x) s
    | None => (Raise TypeError, s)
    end.
Proof. unfold float_ge. now destruct (as_number v). Qed.

Lemma bind_sub_float {B} (v : value) (x : Q) (k : Q -> Py B) (s : Session) :
  bind (sub_float v x) k s
  = match as_number v with
    | Some y => k (round_double (y - x)) s
    | None => (Raise TypeError, s)
    end.
Proof. unfold sub_float. now destruct (as_number v). Qed.


Lemma api_endpoint_run (endpoint : string) (s : Session) :
  _api_endpoint endpoint None s
  = (Ok (Str.join "/" [ api_endpoint (config s); api_version (config s);
                        endpoint ]), s).
Proof. reflexivity. Qed.

(** *** The session state store *)

Lemma state_manager_save_run (s : Session) :
  _state_manager "save" s
  = (Ok tt,
     if cache_state (config s)
     then with_file (Some (json_dumps (VDict (state s)))) s
     else s).
Proof.
  unfold _state_manager. rewrite !bind_gets. cbv zeta.
  now destruct (cache_state (config s)).
Qed.

Lemma state_manager_save (s : Session) :
  cache_state (config s) = true ->
  _state_manager "save" s
  = (Ok tt, with_file (Some (json_dumps (VDict (state s)))) s).
Proof.
  intros H. unfold _state_manager. rewrite !bind_gets. cbv zeta.
  rewrite H. reflexivity.
Qed.

(** With caching on and a session file that holds the object [d],
    [_state_manager('init')] merges [d] into the state. *)
Lemma state_manager_init_load (s : Session) (b : bytes) (d : pydict) :
  cache_state (config s) = true ->
  file s = Some b ->
  json_loads b = Some (VDict d) ->
  _state_manager "init" s
  = (Ok tt, with_state (Dict.update (state s) d) s).
Proof.
  intros H Hf Hl. unfold _state_manager. rewrite !bind_gets. cbv zeta.
  rewrite H, Hf, Hl. reflexivity.
Qed.

(** With caching on and no session file, [_state_manager('init')] prints
    a notice and leaves the state as it is. *)
Lemma state_manager_init_no_file (s : Session) :
  cache_state (config s) = true ->
  file s = None ->
  _state_manager "init" s
  = (Ok tt,
     with_stdout
       (stdout s
        ++ [ mkPrinted
               "Their is no state file to load, will use default state."
               [] ]) s).
Proof.
  intros H Hf. unfold _state_manager. rewrite !bind_gets. cbv zeta.
  rewrite H, Hf. reflexivity.
Qed.

(** With caching off, [_state_manager('init')] deletes the session file
    and leaves the state as it is. *)
Lemma state_manager_init_no_cache (s : Session) :
  cache_state (config s) = false ->
  _state_manager "init" s
  = (Ok tt, match file s with Some _ => with_file None s | None => s end).
Proof.
  intros H. unfold _state_manager. rewrite !bind_gets. cbv zeta.
  rewrite H. now destruct (file s).
Qed.

(** C9.  With caching on, [save] writes the serialised state and nothing
    else decides the bytes: two sessions with the same state write the
    same file, and a second [save] right after the first writes the bytes
    the first one wrote. *)
Theorem save_twice_same_file (s s' : Session) :
  cache_state (config s) = true ->
  cache_state (config s') = true ->
  state s' = state s ->
  file (snd (_state_manager "save" s))
  = Some (json_dumps (VDict (state s)))
  /\ file (snd (_state_manager "save" s'))
     = file (snd (_state_manager "save" s))
  /\ file (snd (_state_manager "save" (snd (_state_manager "save" s))))
     = file (snd (_state_manager "save" s))
  /\ state (snd (_state_manager "save" s)) = state s.
Proof.
  intros H H' E.
  rewrite (state_manager_save s H), (state_manager_save s' H').
  cbn [snd].
  rewrite (state_manager_save
             (with_file (Some (json_dumps (VDict (state s)))) s) H).
  cbn [snd file state with_file].
  rewrite E. repeat split.
Qed.

(** *** Committing a token response *)




(** *** A token response without an access token *)

(** What [logout] does to a session without a session file: at most a
    printed notice. *)
Lemma logout_no_file (s : Session) :
  file s = None ->
  exists out, logout s = (Ok tt, with_stdout out s).
Proof.
  intros Hf. unfold logout. destruct (cache_state (config s)) eqn:Hc.
  - rewrite (state_manager_init_no_file s Hc Hf). eexists. reflexivity.
  - rewrite (state_manager_init_no_cache s Hc), Hf.
    exists (stdout s). now destruct s.
Qed.

(** With caching off, [logout] deletes the session file, and that is all. *)
Lemma logout_no_cache (s : Session) :
  cache_state (config s) = false ->
  exists f, logout s = (Ok tt, with_file f s).
Proof.
  intros Hc. unfold logout. rewrite (state_manager_init_no_cache s Hc).
  destruct (file s) eqn:Hf; [now exists None|].
  exists None. rewrite <- Hf. now destruct s.
Qed.

Lemma token_save_failure (d : pydict) (s : Session) :
  Dict.get "access_token" d = None ->
  _token_save (VDict d) s = (logout ;; ret false) s.
Proof.
  intros H. unfold _token_save, py_in, Dict.mem.
  rewrite bind_ret, H. reflexivity.
Qed.

(** C1.  On a token response without an access token [_token_save]
    returns [False], but the state is not reset to its defaults: [logout]
    only runs [_state_manager('init')], which never assigns the defaults.
    Without a session file, or with caching off, the state stays as it
    was, logged in or not; with a session file and caching on, the state
    is the old state updated with the file's content. *)
Theorem token_save_failure_keeps_state (d : pydict) (s : Session) :
  Dict.get "access_token" d = None ->
  (file s = None \/ cache_state (config s) = false ->
   fst (_token_save (VDict d) s) = Ok false
   /\ state (snd (_token_save (VDict d) s)) = state s)
  /\ (forall (b : bytes) (d0 : pydict),
        cache_state (config s) = true ->
        file s = Some b ->
        json_loads b = Some (VDict d0) ->
        fst (_token_save (VDict d) s) = Ok false
        /\ state (snd (_token_save (VDict d) s))
           = Dict.update (state s) d0).
Proof.
  intros H. rewrite (token_save_failure d s H). split.
  - intros [Hf | Hc].
    + destruct (logout_no_file s Hf) as [out E].
      rewrite (bind_ok _ _ _ _ _ E). now split.
    + destruct (logout_no_cache s Hc) as [f E].
      rewrite (bind_ok _ _ _ _ _ E). now split.
  - intros b d0 Hc Hf Hl. unfold logout.
    rewrite (bind_ok _ _ _ _ _ (state_manager_init_load s b d0 Hc Hf Hl)).
    now split.
Qed.

(** *** Remaining seconds of a token *)

Lemma Qtrunc_floor (q : Q) : (0 <= q)%Q -> Qtrunc q = Qfloor q.
Proof.
  destruct q as [n d]. unfold Qle, Qtrunc, Qfloor. simpl. intros H.
  apply Z.quot_div_nonneg; lia.
Qed.


(** A call of [seconds_left] that returns has found the token, has moved
    nothing but the clock, and returns a non-zero count only for a token
    that is there. *)
Lemma seconds_left_inv (token_key expires_key : string) (s s' : Session)
    (n : Z) :
  seconds_left token_key expires_key s = (Ok n, s') ->
  exists tok,
    Dict.get token_key (state s) = Some tok
    /\ (n <> 0 -> truthy tok = true)
    /\ exists k, s' = with_ticks k s.
Proof.
  unfold seconds_left. rewrite bind_state_get.
  destruct (Dict.get token_key (state s)) as [tok|]; [|discriminate].
  intros H. exists tok. split; [reflexivity|].
  destruct (truthy tok); cbn [negb] in H.
  - split; [reflexivity|].
    rewrite bind_bind, bind_time_time, bind_bind, bind_state_get in H.
    cbn [state with_ticks] in H.
    destruct (Dict.get expires_key (state s)) as [e|]; [|discriminate H].
    rewrite bind_float_ge in H.
    destruct (as_number e) as [t|] eqn:Hn; [|discriminate H].
    destruct (Qle_bool t (clock s (ticks s))).
    + inversion H. subst. eexists. reflexivity.
    + rewrite bind_state_get in H. cbn [state with_ticks] in H.
      destruct (Dict.get expires_key (state s)) as [e'|]; [|discriminate H].
      rewrite bind_time_time, bind_sub_float in H.
      destruct (as_number e'); [|discriminate H].
      inversion H. subst. eexists. reflexivity.
  - rewrite bind_ret in H. inversion H. subst.
    split; [intros N; now contradiction N|].
    exists (ticks s'). now destruct s'.
Qed.

Lemma token_seconds_inv (kind : string) (s s' : Session) (n : Z) :
  _token_seconds kind s = (Ok n, s') ->
  exists tok,
    Dict.get kind (state s) = Some tok
    /\ (n <> 0 -> truthy tok = true)
    /\ exists k, s' = with_ticks k s.
Proof.
  unfold _token_seconds.
  destruct (kind =? "access_token")%string eqn:E1.
  - apply String.eqb_eq in E1. subst kind. apply seconds_left_inv.
  - destruct (kind =? "refresh_token")%string eqn:E2; [|discriminate].
    apply String.eqb_eq in E2. subst kind. apply seconds_left_inv.
Qed.


(** *** Dispatch: the order identifier *)

Lemma order_id_absent (h : Headers) (s : Session) :
  header_get "Location" h = None -> order_id_of h s = (Ok "", s).
Proof. intros H. unfold order_id_of. now rewrite H. Qed.

Lemma order_id_present (h : Headers) (loc : string) (s : Session) :
  header_get "Location" h = Some loc ->
  order_id_of h s
  = (match nth_error (Str.split "orders/" loc) 1 with
     | Some x => Ok x
     | None => Raise IndexError
     end, s).
Proof.
  intros H. unfold order_id_of. rewrite H.
  now destruct (nth_error (Str.split "orders/" loc) 1).
Qed.

(** A dispatch that asked for order details and got a 200 or 201 returns
    [response_dict] with whatever [order_id_of] found. *)
Lemma classify_order_details (r : Response) (oid : string) (s : Session) :
  status_code r = 200 \/ status_code r = 201 ->
  order_id_of (headers r) s = (Ok oid, s) ->
  classify r true s = (Ok (response_dict r oid), s).
Proof.
  intros Hst Hoid. unfold classify.
  rewrite (bind_ok _ _ _ _ _ Hoid).
  destruct Hst as [E | E]; rewrite E; reflexivity.
Qed.

(** C3 (amended).  Take a dispatch that asked for order details and whose
    response has status 200 or 201.  Without a [Location] header the
    order identifier is the empty string.  With a [Location] header that
    contains ["orders/"], the order identifier is the text between the
    first ["orders/"] and the next one, and the whole remainder of the
    header when there is no other ["orders/"].  The last part says it for
    any header that contains ["orders/"]: the header is [p], the first
    ["orders/"], the identifier [id], and a [rest] that is empty or starts
    with the next ["orders/"]. *)
Theorem order_id_from_location
    (method endpoint : string) (mode : option string)
    (params data json : value) (s s1 : Session) (r : Response) :
  send_request (_token_validation 5) method endpoint mode params data json s
  = (Ok r, s1) ->
  status_code r = 200 \/ status_code r = 201 ->
  (header_get "Location" (headers r) = None ->
   _make_request method endpoint mode params data json true s
   = (Ok (response_dict r ""), s1))
  /\ (forall p id : string,
        header_get "Location" (headers r) = Some (p ++ "orders/" ++ id) ->
        Str.contains "orders/" p = false ->
        Str.contains "orders/" id = false ->
        _make_request method endpoint mode params data json true s
        = (Ok (response_dict r id), s1))
  /\ (forall p id rest : string,
        header_get "Location" (headers r)
        = Some (p ++ "orders/" ++ id ++ "orders/" ++ rest) ->
        Str.contains "orders/" p = false ->
        Str.contains "orders/" id = false ->
        _make_request method endpoint mode params data json true s
        = (Ok (response_dict r id), s1))
  /\ (forall loc : string,
        header_get "Location" (headers r) = Some loc ->
        Str.contains "orders/" loc = true ->
        exists p id rest : string,
          loc = (p ++ "orders/" ++ id ++ rest)%string
          /\ Str.contains "orders/" p = false
          /\ Str.contains "orders/" id = false
          /\ (rest = "" \/ Str.starts_with "orders/" rest = true)
          /\ _make_request method endpoint mode params data json true s
             = (Ok (response_dict r id), s1)).
Proof.
  intros Hsend Hst.
  unfold _make_request, _make_request_body.
  rewrite (bind_ok _ _ _ _ _ Hsend).
  assert (One : forall p id : string,
            header_get "Location" (headers r) = Some (p ++ "orders/" ++ id) ->
            Str.contains "orders/" p = false ->
            Str.contains "orders/" id = false ->
            classify r true s1 = (Ok (response_dict r id), s1)).
  { intros p id H Hp Hid. apply classify_order_details; [exact Hst|].
    rewrite (order_id_present _ _ _ H).
    rewrite (StrFacts.split_orders p id Hp).
    now rewrite (StrFacts.split_single _ id Hid). }
  assert (More : forall p id rest : string,
            header_get "Location" (headers r)
            = Some (p ++ "orders/" ++ id ++ "orders/" ++ rest) ->
            Str.contains "orders/" p = false ->
            Str.contains "orders/" id = false ->
            classify r true s1 = (Ok (response_dict r id), s1)).
  { intros p id rest H Hp Hid. apply classify_order_details; [exact Hst|].
    rewrite (order_id_present _ _ _ H).
    rewrite (StrFacts.split_orders p _ Hp).
    now rewrite (StrFacts.split_orders id rest Hid). }
  split; [|split; [exact One|split; [exact More|]]].
  - intros H. apply classify_order_details; [exact Hst|].
    now apply order_id_absent.
  - intros loc H Hc.
    destruct (StrFacts.contains_first "o" "rders/" loc Hc)
      as (p & tail & -> & Hp).
    destruct (Str.contains "orders/" tail) eqn:Ht.
    + destruct (StrFacts.contains_first "o" "rders/" tail Ht)
        as (id & rest & -> & Hid).
      exists p, id, ("orders/" ++ rest)%string.
      repeat split; try assumption.
      * right. apply (StrFacts.starts_with_app "orders/").
      * exact (More p id rest H Hp Hid).
    + exists p, tail, EmptyString.
      rewrite StrFacts.append_nil_r.
      repeat split; try assumption.
      * now left.
      * exact (One p tail H Hp Ht).
Qed.

(** *** Dispatch: the error statuses *)

(** A [Location] header that contains ["orders/"] gives an order
    identifier. *)
Lemma order_id_found (h : Headers) (loc : string) (s : Session) :
  header_get "Location" h = Some loc ->
  Str.contains "orders/" loc = true ->
  exists oid, order_id_of h s = (Ok oid, s).
Proof.
  intros H Hc. rewrite (order_id_present _ _ _ H).
  destruct (StrFacts.contains_first "o" "rders/" loc Hc)
    as (p & tail & -> & Hp).
  rewrite (StrFacts.split_orders p tail Hp). unfold Str.split.
  destruct (Str.split_from "orders/" 0 tail) as [x xs]. now exists x.
Qed.

(** Once the order identifier is found, an error status gets the
    diagnostic record and [None]. *)
Lemma classify_error_status (r : Response) (od : bool) (oid : string)
    (s : Session) :
  In (status_code r) [400; 401; 403; 415; 500] ->
  order_id_of (headers r) s = (Ok oid, s) ->
  classify r od s
  = (Ok VNone, with_stdout (stdout s ++ diagnostic_record r) s).
Proof.
  intros Hst Hoid. unfold classify.
  rewrite (bind_ok _ _ _ _ _ Hoid).
  assert (E : ((status_code r =? 200) || (status_code r =? 201) = false)
              /\ int_in (status_code r) [401; 400; 403; 415; 500] = true).
  { simpl in Hst.
    destruct Hst as [H|[H|[H|[H|[H|[]]]]]]; rewrite <- H; now split. }
  destruct E as [E1 E2]. rewrite E1, E2.
  unfold print, bind, modify, ret. cbn [fst snd stdout with_stdout].
  rewrite <- !app_assoc. reflexivity.
Qed.

(** C8.  The order identifier is read off the [Location] header before
    the status code is looked at.  So a response with one of the error
    statuses and a [Location] header without ["orders/"] makes the
    dispatch raise [IndexError]: nothing is printed and nothing is
    returned.  A response with such a status and no [Location] header, or
    one that contains ["orders/"], gets the diagnostic record and [None],
    and no second request. *)
Theorem dispatch_error_status (method endpoint : string)
    (mode : option string) (params data json : value) (od : bool)
    (s s1 : Session) (r : Response) :
  send_request (_token_validation 5) method endpoint mode params data json s
  = (Ok r, s1) ->
  In (status_code r) [400; 401; 403; 415; 500] ->
  (forall loc : string,
     header_get "Location" (headers r) = Some loc ->
     Str.contains "orders/" loc = false ->
     _make_request method endpoint mode params data json od s
     = (Raise IndexError, s1))
  /\ (header_get "Location" (headers r) = None
      \/ (exists loc : string,
            header_get "Location" (headers r) = Some loc
            /\ Str.contains "orders/" loc = true) ->
      _make_request method endpoint mode params data json od s
      = (Ok VNone, with_stdout (stdout s1 ++ diagnostic_record r) s1)).
Proof.
  intros Hsend Hst.
  unfold _make_request, _make_request_body.
  rewrite (bind_ok _ _ _ _ _ Hsend). split.
  - intros loc Hloc Hno. unfold classify.
    rewrite (bind_raise _ _ s1 s1 IndexError); [reflexivity|].
    rewrite (order_id_present _ _ _ Hloc).
    now rewrite (StrFacts.split_single _ loc Hno).
  - intros [Hloc | (loc & Hloc & Hc)].
    + exact (classify_error_status r od "" s1 Hst (order_id_absent _ _ Hloc)).
    + destruct (order_id_found _ _ s1 Hloc Hc) as [oid Hoid].
      exact (classify_error_status r od oid s1 Hst Hoid).
Qed.

(** *** What the methods leave alone *)

Ltac keeps_auto :=
  unfold logout, state_get, state_set, print, py_int, float_ge, sub_float;
  repeat (first [ assumption
                | match goal with
                  | H : forall x, keeps _ _ |- _ => apply H
                  end
                | keeps_step
                | progress cbv zeta
                | intro; reflexivity ]).

Lemma state_update_keeps_sent (x : value) : keeps sent (state_update x).
Proof.
  intros s. unfold state_update.
  now destruct (dict_update (state s) x).
Qed.

Lemma state_manager_keeps_sent (action : string) :
  keeps sent (_state_manager action).
Proof.
  pose proof state_update_keeps_sent.
  unfold _state_manager. keeps_auto.
Qed.

Lemma token_save_keeps_sent (token_dict : value) :
  keeps sent (_token_save token_dict).
Proof.
  unfold _token_save, py_in, py_getitem, time_time.
  pose proof state_manager_keeps_sent.
  keeps_auto.
Qed.

Lemma classify_keeps_sent (r : Response) (od : bool) :
  keeps sent (classify r od).
Proof. unfold classify, order_id_of. keeps_auto. Qed.

(** *** The call to the token endpoint *)

(** The request [grab_refresh_token] posts. *)
Lemma send_token_request (tv : Py unit) (data : value) (s : Session)
    (a : value) :
  Dict.get "access_token" (state s) = Some a ->
  send_request tv "post" (token_endpoint (config s)) (Some "form")
    VNone data VNone s
  = (Ok (net s (List.length (sent s))),
     with_sent
       (sent s
        ++ [ {| req_method := "post";
                req_url :=
                  Str.join "/" [ api_endpoint (config s);
                                 api_version (config s);
                                 token_endpoint (config s) ];
                req_headers :=
                  [ ("Content-Type",
                     VStr "application/x-www-form-urlencoded") ];
                req_params := VNone;
                req_data := data;
                req_json := VNone |} ]) s).
Proof.
  intros Ha.
  unfold send_request, _api_endpoint, _headers, state_get, requests_call,
    bind, gets, or_raise, ret.
  rewrite Ha. cbn -[Str.join]. rewrite String.eqb_refl. reflexivity.
Qed.

(** On the token endpoint the token validation is not run. *)
Lemma make_request_token_endpoint (tv1 tv2 : Py unit) (method : string)
    (mode : option string) (params data json : value) (od : bool)
    (s : Session) :
  _make_request_body tv1 method (token_endpoint (config s)) mode
    params data json od s
  = _make_request_body tv2 method (token_endpoint (config s)) mode
      params data json od s.
Proof.
  unfold _make_request_body. apply bind_cong.
  unfold send_request.
  rewrite !(bind_ok _ _ _ _ _ (api_endpoint_run _ s)).
  destruct (_headers mode s) as [[h|e] s'] eqn:E;
    [|now rewrite !(bind_raise _ _ _ _ _ E)].
  rewrite !(bind_ok _ _ _ _ _ E).
  assert (s' = s).
  { unfold _headers in E. rewrite bind_state_get in E.
    destruct (Dict.get "access_token" (state s)); [|now inversion E].
    destruct mode as [m|]; [|now inversion E].
    destruct (m =? "json")%string; [now inversion E|].
    destruct (m =? "form")%string; now inversion E. }
  subst s'. rewrite !bind_gets, String.eqb_refl. reflexivity.
Qed.

(** The recursion of the source: [grab_refresh_token] calls
    [_make_request], whose token validation calls [grab_refresh_token].
    The model satisfies that equation, because the inner call targets
    the token endpoint and never reaches the validation. *)
Lemma grab_refresh_token_eq (s : Session) :
  grab_refresh_token s = grab_refresh_token_with _make_request s.
Proof.
  unfold grab_refresh_token, grab_refresh_token_with, _make_request.
  rewrite !bind_gets, !bind_state_get.
  destruct (Dict.get "refresh_token" (state s)); [|reflexivity].
  rewrite !bind_gets. apply bind_cong, make_request_token_endpoint.
Qed.

(** [grab_refresh_token] sends exactly one request, the refresh grant,
    whether it then returns or raises. *)
Lemma grab_refresh_token_sends (s : Session) (a tok : value) :
  Dict.get "access_token" (state s) = Some a ->
  Dict.get "refresh_token" (state s) = Some tok ->
  sent (snd (grab_refresh_token s))
  = (sent s
    ++ [ {| req_method := "post";
            req_url :=
              Str.join "/" [ api_endpoint (config s);
                             api_version (config s);
                             token_endpoint (config s) ];
            req_headers :=
              [ ("Content-Type",
                 VStr "application/x-www-form-urlencoded") ];
            req_params := VNone;
            req_data :=
              VDict [ ("client_id", VStr (client_id s));
                      ("grant_type", VStr "refresh_token");
                      ("access_type", VStr "offline");
                      ("refresh_token", tok) ];
            req_json := VNone |} ])%list.
Proof.
  intros Ha Ht.
  unfold grab_refresh_token, grab_refresh_token_with.
  rewrite bind_gets, bind_state_get, Ht, bind_gets.
  unfold _make_request_body.
  unfold bind at 1. unfold bind at 1.
  rewrite (send_token_request _ _ s a Ha).
  match goal with
  | |- context [classify ?r ?od ?s1] =>
      pose proof (classify_keeps_sent r od s1) as Hc;
      destruct (classify r od s1) as [[v|e] s2]
  end; cbn [snd sent with_sent] in Hc; cbn iota beta; [|exact Hc].
  assert (K : keeps sent (_token_save v ;; _state_manager "save" ;; ret true)).
  { pose proof token_save_keeps_sent. pose proof state_manager_keeps_sent.
    keeps_auto. }
  rewrite (K s2). exact Hc.
Qed.

Lemma classify_json (r : Response) (v : value) (s : Session) :
  status_code r = 200 ->
  header_get "Location" (headers r) = None ->
  header_get "Content-Type" (headers r) = Some "application/json" ->
  body_json r = Some v ->
  classify r false s = (Ok v, s).
Proof.
  intros Hst Hloc Hct Hb. unfold classify.
  rewrite (bind_ok _ _ _ _ _ (order_id_absent _ s Hloc)).
  rewrite Hst. cbn [Z.eqb Pos.eqb orb].
  rewrite bind_or_raise, Hct, Hb. reflexivity.
Qed.

(** C2.  When the token endpoint answers 200 with a JSON object that has
    no access token, the commit fails and the state keeps the old tokens,
    yet [grab_refresh_token] returns [True]: it drops the result of
    [_token_save]. *)
Theorem grab_refresh_token_reports_true (s : Session) (a tok : value)
    (d : pydict) :
  Dict.get "access_token" (state s) = Some a ->
  Dict.get "refresh_token" (state s) = Some tok ->
  file s = None ->
  status_code (net s (List.length (sent s))) = 200 ->
  header_get "Location" (headers (net s (List.length (sent s)))) = None ->
  header_get "Content-Type" (headers (net s (List.length (sent s))))
  = Some "application/json" ->
  body_json (net s (List.length (sent s))) = Some (VDict d) ->
  Dict.get "access_token" d = None ->
  fst (grab_refresh_token s) = Ok true
  /\ state (snd (grab_refresh_token s)) = state s
  /\ forall s1 : Session,
       file s1 = None -> fst (_token_save (VDict d) s1) = Ok false.
Proof.
  intros Ha Ht Hf Hst Hloc Hct Hb Hd.
  assert (Run : exists s' : Session,
             grab_refresh_token s = (Ok true, s') /\ state s' = state s).
  { unfold grab_refresh_token, grab_refresh_token_with.
    rewrite bind_gets, bind_state_get, Ht, bind_gets.
    unfold _make_request_body. rewrite bind_bind.
    rewrite (bind_ok _ _ _ _ _ (send_token_request _ _ s a Ha)).
    rewrite (bind_ok _ _ _ _ _ (classify_json _ _ _ Hst Hloc Hct Hb)).
    rewrite (bind_cong _ _ _ _ (token_save_failure d _ Hd)), bind_bind.
    match goal with
    | |- context [bind logout _ ?s1] =>
        destruct (logout_no_file s1 Hf) as [out E]
    end.
    rewrite (bind_ok _ _ _ _ _ E), bind_ret.
    rewrite (bind_ok _ _ _ _ _ (state_manager_save_run _)).
    cbn [config with_stdout with_sent].
    destruct (cache_state (config s)); eexists; split; reflexivity. }
  destruct Run as (s' & E & Hs'). rewrite E. cbn [fst snd].
  split; [reflexivity|]. split; [exact Hs'|].
  intros s1 Hf1. rewrite (token_save_failure d s1 Hd).
  destruct (logout_no_file s1 Hf1) as [out1 E1].
  now rewrite (bind_ok _ _ _ _ _ E1).
Qed.

(** *** Silent re-authentication *)

(** C6.  [_silent_sso] first asks for the remaining seconds of the access
    token.  When they are strictly positive it returns [True] and no
    request has been sent.  Otherwise it asks for the remaining seconds
    of the refresh token: when they are 0 or less it returns [False] and
    no request has been sent; when they are positive the refresh token is
    present and [_silent_sso] is the call of [grab_refresh_token], which
    posts the refresh grant to the token endpoint.  Without a refresh
    token the remaining seconds are 0, so the method fails by the second
    case. *)
Theorem silent_sso_cases (s s1 : Session) (a : Z) :
  _token_seconds "access_token" s = (Ok a, s1) ->
  (0 < a -> _silent_sso s = (Ok true, s1) /\ sent s1 = sent s)
  /\ (a <= 0 ->
      forall (r : Z) (s2 : Session),
        _token_seconds "refresh_token" s1 = (Ok r, s2) ->
        (r <= 0 -> _silent_sso s = (Ok false, s2) /\ sent s2 = sent s)
        /\ (forall tok,
              Dict.get "refresh_token" (state s) = Some tok ->
              truthy tok = false ->
              _silent_sso s = (Ok false, s2) /\ sent s2 = sent s)
        /\ (0 < r ->
            exists tok req,
              Dict.get "refresh_token" (state s) = Some tok
              /\ truthy tok = true
              /\ _silent_sso s = grab_refresh_token s2
              /\ sent (snd (_silent_sso s)) = (sent s ++ [req])%list
              /\ req_method req = "post"
              /\ req_url req
                 = Str.join "/" [ api_endpoint (config s);
                                  api_version (config s);
                                  token_endpoint (config s) ]
              /\ req_data req
                 = VDict [ ("client_id", VStr (client_id s));
                           ("grant_type", VStr "refresh_token");
                           ("access_type", VStr "offline");
                           ("refresh_token", tok) ])).
Proof.
  intros Ha.
  destruct (token_seconds_inv _ _ _ _ Ha) as (atok & Hatok & _ & k1 & ->).
  unfold _silent_sso. rewrite (bind_ok _ _ _ _ _ Ha).
  split.
  - intros Hpos. apply Z.ltb_lt in Hpos. rewrite Hpos. now split.
  - intros Hneg r s2 Hr.
    assert (Hlt : (0 <? a) = false) by (apply Z.ltb_ge; exact Hneg).
    rewrite Hlt, (bind_ok _ _ _ _ _ Hr).
    destruct (token_seconds_inv _ _ _ _ Hr) as (rtok & Hrtok & Hrt & k2 & ->).
    cbn [state with_ticks] in Hrtok.
    split; [|split].
    + intros Hr0. apply Z.leb_le in Hr0. rewrite Hr0. now split.
    + intros tok Htok Hfalsy.
      assert (rtok = tok) by congruence. subst rtok.
      destruct (r <=? 0) eqn:Hr0; [now split|].
      apply Z.leb_gt in Hr0.
      assert (truthy tok = true) by (apply Hrt; lia). congruence.
    + intros Hr0.
      assert (Hle : (r <=? 0) = false) by (apply Z.leb_gt; exact Hr0).
      assert (Htr : truthy rtok = true) by (apply Hrt; lia).
      rewrite Hle, bind_state_get.
      cbn [state with_ticks]. rewrite Hrtok, Htr, bind_bool_ret.
      pose proof (grab_refresh_token_sends
                    (with_ticks k2 (with_ticks k1 s)) atok rtok Hatok Hrtok)
        as G.
      eexists rtok, _.
      split; [reflexivity|]. split; [exact Htr|]. split; [reflexivity|].
      split; [exact G|]. repeat split.
Qed.

(** *** [WatchlistItem] *)

Lemma check_names_keeps (keys : list string) :
  keeps WatchlistItem.query_parameters (WatchlistItem.check_names keys).
Proof.
  induction keys as [|k keys IH]; cbn [WatchlistItem.check_names].
  - apply keeps_ret.
  - unfold WatchlistItem.print. repeat keeps_step. exact IH.
Qed.

Lemma validate_items_keeps (items : pydict) :
  keeps WatchlistItem.query_parameters (WatchlistItem.validate_items items).
Proof.
  induction items as [|[k v] items IH]; cbn [WatchlistItem.validate_items].
  - apply keeps_ret.
  - unfold WatchlistItem.print. repeat keeps_step; exact IH.
Qed.

(** A constructed item holds the default parameters updated with the
    keyword arguments. *)
Lemma init_query_parameters (kwargs : pydict) (i0 i1 : WatchlistItem.Item) :
  WatchlistItem.__init__ kwargs i0 = (Ok tt, i1) ->
  WatchlistItem.query_parameters i1
  = Dict.update WatchlistItem.default_query_parameters kwargs.
Proof.
  unfold WatchlistItem.__init__, WatchlistItem.validate_watchlist.
  rewrite bind_modify.
  set (j := {| WatchlistItem.argument_types := _ |}).
  intros H. unfold bind at 1 in H.
  pose proof (check_names_keeps (map fst kwargs) j) as K1.
  destruct (WatchlistItem.check_names (map fst kwargs) j) as [[[]|e] j1];
    [|discriminate H].
  rewrite bind_bind in H. unfold bind at 1 in H.
  pose proof (validate_items_keeps kwargs j1) as K2.
  destruct (WatchlistItem.validate_items kwargs j1) as [[[]|e] j2];
    [|discriminate H].
  rewrite bind_ret in H. unfold modify in H. inversion H.
  cbn [snd] in K1, K2. cbn [WatchlistItem.query_parameters
                              WatchlistItem.with_query_parameters].
  rewrite K2, K1. reflexivity.
Qed.

(** C10.  [create_watchlist_json] changes the item it is called on: on a
    newly built item it returns the JSON text, and the item's parameters
    have lost [symbol] and [assetType] and gained [instrument]; called
    again on that item it raises [KeyError('symbol')]. *)
Theorem create_watchlist_json_not_repeatable (kwargs : pydict)
    (i0 i1 : WatchlistItem.Item) :
  WatchlistItem.__init__ kwargs i0 = (Ok tt, i1) ->
  exists (i2 : WatchlistItem.Item) (symbol asset : value),
    WatchlistItem.create_watchlist_json i1
    = (Ok (json_dumps (VDict (WatchlistItem.query_parameters i2))), i2)
    /\ Dict.get "symbol" (WatchlistItem.query_parameters i1) = Some symbol
    /\ Dict.get "assetType" (WatchlistItem.query_parameters i1) = Some asset
    /\ Dict.get "symbol" (WatchlistItem.query_parameters i2) = None
    /\ Dict.get "assetType" (WatchlistItem.query_parameters i2) = None
    /\ Dict.get "instrument" (WatchlistItem.query_parameters i2)
       = Some (VDict [("symbol", symbol); ("assetType", asset)])
    /\ WatchlistItem.create_watchlist_json i2 = (Raise (KeyError "symbol"), i2).
Proof.
  intros Hinit.
  pose proof (init_query_parameters kwargs i0 i1 Hinit) as Hq.
  assert (Hs : Dict.mem "symbol" (WatchlistItem.query_parameters i1) = true)
    by (rewrite Hq; now apply DictFacts.mem_update).
  assert (Ha : Dict.mem "assetType" (WatchlistItem.query_parameters i1) = true)
    by (rewrite Hq; now apply DictFacts.mem_update).
  unfold Dict.mem in Hs, Ha.
  destruct (Dict.get "symbol" (WatchlistItem.query_parameters i1))
    as [symbol|] eqn:Es; [|discriminate Hs].
  destruct (Dict.get "assetType" (WatchlistItem.query_parameters i1))
    as [asset|] eqn:Ea; [|discriminate Ha].
  eexists _, symbol, asset.
  split.
  { unfold WatchlistItem.create_watchlist_json.
    rewrite bind_gets, bind_or_raise, Es, bind_or_raise, Ea.
    rewrite !bind_modify, bind_gets. reflexivity. }
  cbn [WatchlistItem.query_parameters WatchlistItem.with_query_parameters].
  split; [reflexivity|]. split; [reflexivity|].
  assert (G1 : forall q,
             Dict.get "symbol"
               (Dict.set "instrument" q
                  (Dict.remove "assetType"
                     (Dict.remove "symbol"
                        (WatchlistItem.query_parameters i1)))) = None).
  { intros q. rewrite DictFacts.get_set_other by reflexivity.
    rewrite DictFacts.get_remove_other by reflexivity.
    apply DictFacts.get_remove_same. }
  split; [apply G1|].
  split.
  { rewrite DictFacts.get_set_other by reflexivity.
    apply DictFacts.get_remove_same. }
  split; [apply DictFacts.get_set_same|].
  unfold WatchlistItem.create_watchlist_json.
  rewrite bind_gets, bind_or_raise.
  cbn [WatchlistItem.query_parameters WatchlistItem.with_query_parameters].
  now rewrite G1.
Qed.

End Properties.

(** ** The argument validator *)

Section ValidatorProperties.

Variable table : list (string * list (string * list string)).

Lemma existsb_negb_map {A} (f : A -> bool) (l : list A) :
  existsb negb (map f l) = negb (forallb f l).
Proof.
  induction l as [|x l IH]; simpl; [reflexivity|].
  rewrite IH. now destruct (f x).
Qed.



End ValidatorProperties.

(** ** The dispatcher on a valid, an expired and a rejected token *)

Section DispatchProperties.

Context {rt : Runtime}.

Lemma bind_raise_now {S A B : Type} (e : exn) (k : A -> M S B) (s : S) :
  bind (raise e) k s = (Raise e, s).
Proof. reflexivity. Qed.

(** [_headers] reads the access token and changes nothing. *)
Lemma headers_run (mode : option string) (s : Session) (tok : value) :
  Dict.get "access_token" (state s) = Some tok ->
  exists h : pydict,
    _headers mode s = (Ok h, s)
    /\ Dict.get "Authorization" h = Some (VStr ("Bearer " ++ py_str tok)).
Proof.
  intros Ht. unfold _headers. rewrite bind_state_get, Ht.
  destruct mode as [m|]; [|eexists; split; reflexivity].
  destruct (m =? "json")%string; [eexists; split; reflexivity|].
  destruct (m =? "form")%string; eexists; split; reflexivity.
Qed.

(** The validation does nothing when enough seconds remain or refreshing
    is switched off. *)
Lemma token_validation_skip (s s1 : Session) (a : Z) :
  _token_seconds "access_token" s = (Ok a, s1) ->
  5 <= a \/ refresh_enabled (config s) = false ->
  _token_validation 5 s = (Ok tt, s1).
Proof.
  intros Ha Hc.
  destruct (token_seconds_inv _ _ _ _ Ha) as (tok & _ & _ & k & ->).
  unfold _token_validation.
  rewrite (bind_ok _ _ _ _ _ Ha), bind_gets. cbn [config with_ticks].
  destruct Hc as [Hc|Hc].
  - apply Z.ltb_ge in Hc. now rewrite Hc.
  - rewrite Hc, andb_false_r. reflexivity.
Qed.

(** The validation refreshes when fewer than five seconds remain and
    refreshing is on. *)
Lemma token_validation_refresh (s s1 : Session) (a : Z) :
  _token_seconds "access_token" s = (Ok a, s1) ->
  a < 5 ->
  refresh_enabled (config s) = true ->
  _token_validation 5 s = (grab_refresh_token ;; ret tt) s1.
Proof.
  intros Ha Hlt He.
  destruct (token_seconds_inv _ _ _ _ Ha) as (tok & _ & _ & k & ->).
  unfold _token_validation.
  rewrite (bind_ok _ _ _ _ _ Ha), bind_gets. cbn [config with_ticks].
  apply Z.ltb_lt in Hlt. now rewrite Hlt, He.
Qed.

(** [_make_request] up to the HTTP call, on an endpoint other than the
    token endpoint and with one of the five methods: the headers are those
    built before the validation ran. *)
Lemma send_request_run (tv : Py unit) (method endpoint : string)
    (mode : option string) (params data json : value) (s s1 : Session)
    (h : pydict) :
  (endpoint =? token_endpoint (config s))%string = false ->
  str_in method ["get"; "post"; "put"; "delete"; "patch"] = true ->
  _headers mode s = (Ok h, s) ->
  tv s = (Ok tt, s1) ->
  send_request tv method endpoint mode params data json s
  = (Ok (net s1 (List.length (sent s1))),
     with_sent
       (sent s1
        ++ [ {| req_method := method;
                req_url :=
                  Str.join "/" [ api_endpoint (config s);
                                 api_version (config s); endpoint ];
                req_headers := h;
                req_params := params;
                req_data := data;
                req_json := json |} ]) s1).
Proof.
  intros He Hm Hh Htv. unfold send_request.
  rewrite (bind_ok _ _ _ _ _ (api_endpoint_run endpoint s)).
  rewrite (bind_ok _ _ _ _ _ Hh), bind_gets, He. cbn [negb].
  rewrite bind_bind, (bind_ok _ _ _ _ _ Htv), bind_ret, Hm.
  reflexivity.
Qed.

(** The same, when the validation raises: nothing is sent for the call. *)
Lemma send_request_validation_raises (tv : Py unit) (method endpoint : string)
    (mode : option string) (params data json : value) (s s1 : Session)
    (h : pydict) (e : exn) :
  (endpoint =? token_endpoint (config s))%string = false ->
  _headers mode s = (Ok h, s) ->
  tv s = (Raise e, s1) ->
  send_request tv method endpoint mode params data json s = (Raise e, s1).
Proof.
  intros He Hh Htv. unfold send_request.
  rewrite (bind_ok _ _ _ _ _ (api_endpoint_run endpoint s)).
  rewrite (bind_ok _ _ _ _ _ Hh), bind_gets, He. cbn [negb].
  rewrite bind_bind, (bind_raise _ _ _ _ _ Htv). reflexivity.
Qed.

(** What [classify] does is print: it keeps every part of the session
    that printing keeps. *)
Lemma classify_keeps {X : Type} (f : Session -> X) (r : Response)
    (od : bool) :
  (forall l s, f (with_stdout l s) = f s) ->
  keeps f (classify r od).
Proof.
  intros Hf. unfold classify, order_id_of, print.
  repeat first [ keeps_step | apply keeps_modify; intro; apply Hf ].
Qed.

(** X1.  A dispatch to an endpoint other than the token endpoint, with
    one of the five methods, by a client whose access token has five
    seconds or more left (or whose refreshing is switched off): exactly
    one HTTP request is sent, to [api_endpoint/api_version/endpoint], with
    the access token as bearer in its [Authorization] header and the
    parameters and payloads passed through; the token endpoint is not
    contacted, and the state and the session file stay as they were. *)
Theorem dispatch_sends_one_request (method endpoint : string)
    (mode : option string) (params data json : value) (od : bool)
    (s s1 : Session) (tok : value) (a : Z) :
  (endpoint =? token_endpoint (config s))%string = false ->
  str_in method ["get"; "post"; "put"; "delete"; "patch"] = true ->
  Dict.get "access_token" (state s) = Some tok ->
  _token_seconds "access_token" s = (Ok a, s1) ->
  5 <= a \/ refresh_enabled (config s) = false ->
  exists (h : pydict) (req : Request),
    req = {| req_method := method;
             req_url :=
               Str.join "/" [ api_endpoint (config s);
                              api_version (config s); endpoint ];
             req_headers := h;
             req_params := params;
             req_data := data;
             req_json := json |}
    /\ Dict.get "Authorization" h = Some (VStr ("Bearer " ++ py_str tok))
    /\ _make_request method endpoint mode params data json od s
       = classify (net s (List.length (sent s))) od
           (with_sent (sent s ++ [req]) s1)
    /\ sent (snd (_make_request method endpoint mode params data json od s))
       = (sent s ++ [req])%list
    /\ state (snd (_make_request method endpoint mode params data json od s))
       = state s
    /\ file (snd (_make_request method endpoint mode params data json od s))
       = file s.
Proof.
  intros He Hm Ht Ha Hc.
  destruct (headers_run mode s tok Ht) as (h & Hh & Hauth).
  pose proof (token_validation_skip s s1 a Ha Hc) as Htv.
  destruct (token_seconds_inv _ _ _ _ Ha) as (tok' & _ & _ & k & ->).
  eexists h, _. split; [reflexivity|]. split; [exact Hauth|].
  assert (Run : _make_request method endpoint mode params data json od s
                = classify (net s (List.length (sent s))) od
                    (with_sent
                       (sent s
                        ++ [ {| req_method := method;
                                req_url :=
                                  Str.join "/" [ api_endpoint (config s);
                                                 api_version (config s);
                                                 endpoint ];
                                req_headers := h;
                                req_params := params;
                                req_data := data;
                                req_json := json |} ]) (with_ticks k s))).
  { unfold _make_request, _make_request_body.
    rewrite (bind_ok _ _ _ _ _
               (send_request_run _ method endpoint mode params data json
                  s _ h He Hm Hh Htv)).
    reflexivity. }
  split; [exact Run|]. rewrite Run.
  split; [|split].
  - now rewrite (classify_keeps_sent _ od _).
  - now rewrite (classify_keeps state _ od (fun _ _ => eq_refl) _).
  - now rewrite (classify_keeps file _ od (fun _ _ => eq_refl) _).
Qed.

(** X2.  When fewer than five seconds remain and refreshing is on, the
    dispatch first runs [grab_refresh_token] and then sends the request
    it was asked for, so two requests go out: the refresh grant and the
    call.  The headers of the call were built before the refresh: its
    [Authorization] header carries the access token the client held when
    the dispatch began, whatever token the refresh stored. *)
Theorem dispatch_after_refresh_sends_old_token (method endpoint : string)
    (mode : option string) (params data json : value) (od : bool)
    (s s1 s2 : Session) (tok rtok : value) (a : Z) (b : bool) :
  (endpoint =? token_endpoint (config s))%string = false ->
  str_in method ["get"; "post"; "put"; "delete"; "patch"] = true ->
  Dict.get "access_token" (state s) = Some tok ->
  Dict.get "refresh_token" (state s) = Some rtok ->
  _token_seconds "access_token" s = (Ok a, s1) ->
  a < 5 ->
  refresh_enabled (config s) = true ->
  grab_refresh_token s1 = (Ok b, s2) ->
  exists (h : pydict) (refresh req : Request),
    Dict.get "Authorization" h = Some (VStr ("Bearer " ++ py_str tok))
    /\ req = {| req_method := method;
                req_url :=
                  Str.join "/" [ api_endpoint (config s);
                                 api_version (config s); endpoint ];
                req_headers := h;
                req_params := params;
                req_data := data;
                req_json := json |}
    /\ req_method refresh = "post"
    /\ req_url refresh
       = Str.join "/" [ api_endpoint (config s); api_version (config s);
                        token_endpoint (config s) ]
    /\ req_data refresh
       = VDict [ ("client_id", VStr (client_id s));
                 ("grant_type", VStr "refresh_token");
                 ("access_type", VStr "offline");
                 ("refresh_token", rtok) ]
    /\ sent s2 = (sent s ++ [refresh])%list
    /\ _make_request method endpoint mode params data json od s
       = classify (net s2 (List.length (sent s2))) od
           (with_sent (sent s2 ++ [req]) s2)
    /\ sent (snd (_make_request method endpoint mode params data json od s))
       = (sent s ++ [refresh; req])%list.
Proof.
  intros He Hm Ht Hr Ha Hlt Hen Hg.
  destruct (headers_run mode s tok Ht) as (h & Hh & Hauth).
  assert (Htv : _token_validation 5 s = (Ok tt, s2)).
  { rewrite (token_validation_refresh s s1 a Ha Hlt Hen).
    now rewrite (bind_ok _ _ _ _ _ Hg). }
  destruct (token_seconds_inv _ _ _ _ Ha) as (tok' & _ & _ & k & ->).
  pose proof (grab_refresh_token_sends (with_ticks k s) tok rtok Ht Hr) as G.
  rewrite Hg in G. cbn [snd sent config client_id with_ticks] in G.
  eexists h, _, _. split; [exact Hauth|]. split; [reflexivity|].
  split; [|split; [|split; [|split; [exact G|]]]]; try reflexivity.
  assert (Run : _make_request method endpoint mode params data json od s
                = classify (net s2 (List.length (sent s2))) od
                    (with_sent
                       (sent s2
                        ++ [ {| req_method := method;
                                req_url :=
                                  Str.join "/" [ api_endpoint (config s);
                                                 api_version (config s);
                                                 endpoint ];
                                req_headers := h;
                                req_params := params;
                                req_data := data;
                                req_json := json |} ]) s2)).
  { unfold _make_request, _make_request_body.
    rewrite (bind_ok _ _ _ _ _
               (send_request_run _ method endpoint mode params data json
                  s _ h He Hm Hh Htv)).
    reflexivity. }
  split; [exact Run|]. rewrite Run.
  rewrite (classify_keeps_sent _ od _). cbn [sent with_sent].
  rewrite G, <- app_assoc. reflexivity.
Qed.

(** X3.  When fewer than five seconds remain, refreshing is on and the
    token endpoint answers the refresh grant with an error status (400,
    401, 403, 415 or 500, no [Location] header), the dispatch raises
    [TypeError]: the refresh got [None] for a token response and tests
    ['access_token' not in None].  The call that was asked for is never
    sent; the only request is the refresh grant, the diagnostic record of
    its response is printed, and the state keeps the old tokens. *)
Theorem dispatch_refresh_rejected (method endpoint : string)
    (mode : option string) (params data json : value) (od : bool)
    (s s1 : Session) (tok rtok : value) (a : Z) :
  (endpoint =? token_endpoint (config s))%string = false ->
  Dict.get "access_token" (state s) = Some tok ->
  Dict.get "refresh_token" (state s) = Some rtok ->
  _token_seconds "access_token" s = (Ok a, s1) ->
  a < 5 ->
  refresh_enabled (config s) = true ->
  In (status_code (net s (List.length (sent s)))) [400; 401; 403; 415; 500] ->
  header_get "Location" (headers (net s (List.length (sent s)))) = None ->
  fst (_make_request method endpoint mode params data json od s)
  = Raise TypeError
  /\ sent (snd (_make_request method endpoint mode params data json od s))
     = (sent s
        ++ [ {| req_method := "post";
                req_url :=
                  Str.join "/" [ api_endpoint (config s);
                                 api_version (config s);
                                 token_endpoint (config s) ];
                req_headers :=
                  [ ("Content-Type",
                     VStr "application/x-www-form-urlencoded") ];
                req_params := VNone;
                req_data :=
                  VDict [ ("client_id", VStr (client_id s));
                          ("grant_type", VStr "refresh_token");
                          ("access_type", VStr "offline");
                          ("refresh_token", rtok) ];
                req_json := VNone |} ])%list
  /\ state (snd (_make_request method endpoint mode params data json od s))
     = state s
  /\ stdout (snd (_make_request method endpoint mode params data json od s))
     = (stdout s
        ++ diagnostic_record (net s (List.length (sent s))))%list.
Proof.
  intros He Ht Hr Ha Hlt Hen Hst Hloc.
  destruct (headers_run mode s tok Ht) as (h & Hh & _).
  pose proof (token_validation_refresh s s1 a Ha Hlt Hen) as Htv.
  destruct (token_seconds_inv _ _ _ _ Ha) as (tok' & _ & _ & k & ->).
  set (r := net s (List.length (sent s))) in *.
  assert (G : exists s2 : Session,
             grab_refresh_token (with_ticks k s) = (Raise TypeError, s2)
             /\ sent s2
                = (sent s
                   ++ [ {| req_method := "post";
                           req_url :=
                             Str.join "/" [ api_endpoint (config s);
                                            api_version (config s);
                                            token_endpoint (config s) ];
                           req_headers :=
                             [ ("Content-Type",
                                VStr "application/x-www-form-urlencoded") ];
                           req_params := VNone;
                           req_data :=
                             VDict [ ("client_id", VStr (client_id s));
                                     ("grant_type", VStr "refresh_token");
                                     ("access_type", VStr "offline");
                                     ("refresh_token", rtok) ];
                           req_json := VNone |} ])%list
             /\ state s2 = state s
             /\ stdout s2 = (stdout s ++ diagnostic_record r)%list).
  { unfold grab_refresh_token, grab_refresh_token_with.
    rewrite bind_gets, bind_state_get. cbn [state with_ticks].
    rewrite Hr, bind_gets.
    unfold _make_request_body. rewrite bind_bind.
    rewrite (bind_ok _ _ _ _ _
               (send_token_request _ _ (with_ticks k s) tok Ht)).
    cbn [net sent with_ticks].
    fold r.
    rewrite (bind_ok _ _ _ _ _
               (classify_error_status r false "" _ Hst
                  (order_id_absent _ _ Hloc))).
    unfold _token_save, py_in. rewrite bind_bind, bind_raise_now.
    eexists. split; [reflexivity|]. repeat split. }
  destruct G as (s2 & Hg & Hsent & Hstate & Hout).
  assert (Htv' : _token_validation 5 s = (Raise TypeError, s2)).
  { rewrite Htv. now rewrite (bind_raise _ _ _ _ _ Hg). }
  unfold _make_request, _make_request_body.
  rewrite (bind_raise _ _ _ _ _
             (send_request_validation_raises _ method endpoint mode params
                data json s s2 h TypeError He Hh Htv')).
  cbn [fst snd]. repeat split; assumption.
Qed.

(** X4.  A method name other than the five lower-case names (['GET'],
    ['head'], ...) sends nothing: no branch of the dispatcher assigns
    [response], and reading it raises [UnboundLocalError].  On the token
    endpoint the session is untouched; elsewhere the token validation has
    already run. *)
Theorem dispatch_unknown_method (method endpoint : string)
    (mode : option string) (params data json : value) (od : bool)
    (s : Session) (tok : value) :
  str_in method ["get"; "post"; "put"; "delete"; "patch"] = false ->
  Dict.get "access_token" (state s) = Some tok ->
  (endpoint = token_endpoint (config s) ->
   _make_request method endpoint mode params data json od s
   = (Raise (UnboundLocalError "response"), s))
  /\ (forall (a : Z) (s1 : Session),
        (endpoint =? token_endpoint (config s))%string = false ->
        _token_seconds "access_token" s = (Ok a, s1) ->
        5 <= a \/ refresh_enabled (config s) = false ->
        _make_request method endpoint mode params data json od s
        = (Raise (UnboundLocalError "response"), s1)
        /\ sent s1 = sent s).
Proof.
  intros Hm Ht.
  destruct (headers_run mode s tok Ht) as (h & Hh & _).
  split.
  - intros ->. unfold _make_request, _make_request_body, send_request.
    rewrite bind_bind, (bind_ok _ _ _ _ _ (api_endpoint_run _ s)).
    rewrite bind_bind, (bind_ok _ _ _ _ _ Hh), bind_bind, bind_gets.
    rewrite String.eqb_refl. cbn [negb]. rewrite bind_bind, bind_ret, Hm.
    reflexivity.
  - intros a s1 He Ha Hc.
    pose proof (token_validation_skip s s1 a Ha Hc) as Htv.
    destruct (token_seconds_inv _ _ _ _ Ha) as (tok' & _ & _ & k & ->).
    split; [|reflexivity].
    unfold _make_request, _make_request_body, send_request.
    rewrite bind_bind, (bind_ok _ _ _ _ _ (api_endpoint_run _ s)).
    rewrite bind_bind, (bind_ok _ _ _ _ _ Hh), bind_bind, bind_gets.
    rewrite He. cbn [negb].
    rewrite !bind_bind, (bind_ok _ _ _ _ _ Htv), bind_ret, Hm.
    reflexivity.
Qed.

(** X5.  A response whose status is none of 200, 201, 400, 401, 403, 415
    and 500 (a 404, a 204, a 429, ...) is passed over in silence: the
    dispatch returns [None], prints no diagnostic and raises nothing, with
    or without [order_details]. *)
Theorem dispatch_unlisted_status_silent (method endpoint : string)
    (mode : option string) (params data json : value) (od : bool)
    (s s1 : Session) (r : Response) :
  send_request (_token_validation 5) method endpoint mode params data json s
  = (Ok r, s1) ->
  int_in (status_code r) [200; 201; 401; 400; 403; 415; 500] = false ->
  header_get "Location" (headers r) = None
  \/ (exists loc : string,
        header_get "Location" (headers r) = Some loc
        /\ Str.contains "orders/" loc = true) ->
  _make_request method endpoint mode params data json od s = (Ok VNone, s1).
Proof.
  intros Hsend Hst Hloc.
  assert (Hid : exists oid, order_id_of (headers r) s1 = (Ok oid, s1)).
  { destruct Hloc as [Hn | (loc & Hl & Hc)].
    - exists "". now apply order_id_absent.
    - now apply (order_id_found _ loc). }
  destruct Hid as (oid & Hid).
  unfold _make_request, _make_request_body.
  rewrite (bind_ok _ _ _ _ _ Hsend).
  unfold classify. rewrite (bind_ok _ _ _ _ _ Hid).
  unfold int_in in Hst. cbn [existsb] in Hst.
  repeat (apply orb_false_elim in Hst; destruct Hst as [?H Hst]).
  rewrite H, H0. cbn [orb].
  unfold int_in. cbn [existsb]. rewrite H1, H2, H3, H4, H5.
  reflexivity.
Qed.

(** X6.  A response with status 200 or 201, without [order_details] and
    without a [Location] header, is decided by its [Content-Type] alone:
    without that header the dispatch raises [KeyError]; when it is
    exactly ['application/json;charset=UTF-8'] or ['application/json'] the
    dispatch returns the decoded body (and raises where the body does not
    decode); for any other content type, other spellings of the JSON type
    included, it returns [None]. *)
Theorem dispatch_success_body (method endpoint : string)
    (mode : option string) (params data json : value)
    (s s1 : Session) (r : Response) :
  send_request (_token_validation 5) method endpoint mode params data json s
  = (Ok r, s1) ->
  status_code r = 200 \/ status_code r = 201 ->
  header_get "Location" (headers r) = None ->
  (header_get "Content-Type" (headers r) = None ->
   _make_request method endpoint mode params data json false s
   = (Raise (KeyError "content-type"), s1))
  /\ (forall ct : string,
        header_get "Content-Type" (headers r) = Some ct ->
        (ct = "application/json;charset=UTF-8" \/ ct = "application/json" ->
         _make_request method endpoint mode params data json false s
         = (match body_json r with
            | Some v => Ok v
            | None => Raise JSONDecodeError
            end, s1))
        /\ (ct <> "application/json;charset=UTF-8" ->
            ct <> "application/json" ->
            _make_request method endpoint mode params data json false s
            = (Ok VNone, s1))).
Proof.
  intros Hsend Hst Hloc.
  assert (Hcode : (status_code r =? 200) || (status_code r =? 201) = true).
  { destruct Hst as [-> | ->]; reflexivity. }
  assert (Run : _make_request method endpoint mode params data json false s
                = (ct <- or_raise (KeyError "content-type")
                           (header_get "Content-Type" (headers r)) ;;
                   if str_in ct ["application/json;charset=UTF-8";
                                 "application/json"]
                   then or_raise JSONDecodeError (body_json r)
                   else ret VNone) s1).
  { unfold _make_request, _make_request_body.
    rewrite (bind_ok _ _ _ _ _ Hsend).
    unfold classify.
    rewrite (bind_ok _ _ _ _ _ (order_id_absent _ s1 Hloc)), Hcode.
    reflexivity. }
  rewrite Run, bind_or_raise.
  split.
  - intros ->. reflexivity.
  - intros ct ->. split.
    + intros [-> | ->]; cbn [str_in existsb String.eqb Ascii.eqb Bool.eqb orb];
        now destruct (body_json r).
    + intros N1 N2. unfold str_in. cbn [existsb].
      apply String.eqb_neq in N1, N2. now rewrite N1, N2.
Qed.


End DispatchProperties.

(** ** Building a client and a watchlist item *)

Section ConstructionProperties.

Context {rt : Runtime}.

(** X8.  Building a client resets the configuration to its defaults, so
    caching is on while [__init__] runs [_state_manager('init')]: the
    branch that deletes the session file cannot be taken.  Whatever the
    session file holds, and whether [__init__] returns or raises, the file
    is left as it was and no request is sent. *)
Theorem init_keeps_session_file (cid ruri : string)
    (acct cpath : option string) (s : Session) :
  file (snd (__init__ cid ruri acct cpath s)) = file s
  /\ sent (snd (__init__ cid ruri acct cpath s)) = sent s
  /\ config (snd (__init__ cid ruri acct cpath s)) = default_config
  /\ client_id (snd (__init__ cid ruri acct cpath s)) = cid
  /\ redirect_uri (snd (__init__ cid ruri acct cpath s)) = ruri
  /\ account_number (snd (__init__ cid ruri acct cpath s)) = acct
  /\ credentials_path (snd (__init__ cid ruri acct cpath s)) = cpath.
Proof.
  unfold __init__. rewrite bind_modify.
  unfold _state_manager. rewrite !bind_gets. cbn [config file].
  destruct (file s) as [b|]; cbn -[json_loads state_update].
  - destruct (json_loads b) as [[]|]; try (cbn; repeat split);
      unfold state_update;
      match goal with
      | |- context [dict_update ?d ?x] => destruct (dict_update d x)
      end; repeat split.
  - repeat split.
Qed.

(** X9.  The state of a newly built client.  Without a session file it
    is the default state, and the notice that there is no state file is
    printed.  With a session file that holds a JSON object, every key of
    the file has the file's value and every other key its default; the
    state the session held before plays no part. *)
Theorem init_state_from_file (cid ruri : string)
    (acct cpath : option string) (s : Session) :
  (file s = None ->
   fst (__init__ cid ruri acct cpath s) = Ok tt
   /\ state (snd (__init__ cid ruri acct cpath s)) = default_state
   /\ stdout (snd (__init__ cid ruri acct cpath s))
      = (stdout s
         ++ [ mkPrinted
                "Their is no state file to load, will use default state."
                [] ])%list)
  /\ (forall (b : bytes) (d : pydict),
        file s = Some b ->
        json_loads b = Some (VDict d) ->
        wf d ->
        fst (__init__ cid ruri acct cpath s) = Ok tt
        /\ stdout (snd (__init__ cid ruri acct cpath s)) = stdout s
        /\ forall k : string,
             Dict.get k (state (snd (__init__ cid ruri acct cpath s)))
             = match Dict.get k d with
               | Some v => Some v
               | None => Dict.get k default_state
               end).
Proof.
  unfold __init__. rewrite bind_modify.
  set (s0 := {| config := default_config |}).
  split.
  - intros Hf.
    rewrite (state_manager_init_no_file s0 eq_refl Hf).
    repeat split.
  - intros b d Hf Hb Hwf.
    rewrite (state_manager_init_load s0 b d eq_refl Hf Hb).
    cbn [fst snd state stdout with_state s0].
    split; [reflexivity|]. split; [reflexivity|].
    intros k. now apply DictFacts.get_update.
Qed.

(** *** [WatchlistItem] *)

(** The two loops of [WatchlistItem.__init__], as conditions on the
    keyword arguments. *)
Lemma check_names_run (keys : list string) (i : WatchlistItem.Item) :
  WatchlistItem.query_parameters i = WatchlistItem.default_query_parameters ->
  if forallb (fun k => Dict.mem k WatchlistItem.default_query_parameters) keys
  then WatchlistItem.check_names keys i = (Ok tt, i)
  else fst (WatchlistItem.check_names keys i)
       = Raise (KeyError "Invalid Argument Name.").
Proof.
  intros Hq. induction keys as [|k keys IH]; cbn [forallb].
  - reflexivity.
  - cbn [WatchlistItem.check_names]. rewrite bind_gets, Hq.
    destruct (Dict.mem k WatchlistItem.default_query_parameters);
      cbn [negb andb]; [exact IH | reflexivity].
Qed.

Lemma validate_items_run (items : pydict) (i : WatchlistItem.Item) :
  WatchlistItem.argument_types i = WatchlistItem.default_argument_types ->
  if forallb
       (fun kv =>
          negb (fst kv =? "assetType")%string
          || match snd kv with
             | VStr a =>
                 str_in a ["EQUITY"; "OPTION"; "MUTUAL_FUND"; "FIXED_INCOME";
                           "INDEX"]
             | _ => false
             end) items
  then WatchlistItem.validate_items items i = (Ok tt, i)
  else fst (WatchlistItem.validate_items items i)
       = Raise (KeyError "Invalid Value.").
Proof.
  intros Ht. induction items as [|[k v] items IH]; cbn [forallb].
  - reflexivity.
  - cbn [WatchlistItem.validate_items fst snd]. rewrite bind_gets, Ht.
    unfold WatchlistItem.default_argument_types. cbn [lookup].
    rewrite (String.eqb_sym k "assetType").
    destruct ("assetType" =? k)%string; cbn [negb orb andb]; [|exact IH].
    set (ok := match v with
               | VStr a =>
                   str_in a ["EQUITY"; "OPTION"; "MUTUAL_FUND";
                             "FIXED_INCOME"; "INDEX"]
               | _ => false
               end).
    destruct ok; cbn [negb andb]; [exact IH | reflexivity].
Qed.

(** The keys of a dictionary after an assignment, a deletion, an update. *)
Lemma mem_keys (k : string) (d : pydict) :
  Dict.mem k d = existsb (fun x => (x =? k)%string) (map fst d).
Proof.
  unfold Dict.mem. induction d as [|[k' v'] d IH]; cbn; [reflexivity|].
  destruct (k' =? k)%string; [reflexivity | exact IH].
Qed.

Lemma keys_of_set (k : string) (v : value) (d : pydict) :
  map fst (Dict.set k v d)
  = if Dict.mem k d then map fst d else (map fst d ++ [k])%list.
Proof.
  unfold Dict.mem. induction d as [|[k' v'] d IH]; cbn; [reflexivity|].
  destruct (k' =? k)%string; cbn; [reflexivity|].
  rewrite IH. now destruct (Dict.get k d).
Qed.

Lemma keys_of_remove (k : string) (d : pydict) :
  map fst (Dict.remove k d)
  = filter (fun x => negb (x =? k)%string) (map fst d).
Proof.
  unfold Dict.remove. induction d as [|[k' v'] d IH]; cbn; [reflexivity|].
  destruct (k' =? k)%string; cbn; [exact IH | now rewrite IH].
Qed.

Lemma keys_of_update (d other : pydict) :
  forallb (fun k => Dict.mem k d) (map fst other) = true ->
  map fst (Dict.update d other) = map fst d.
Proof.
  unfold Dict.update. revert d.
  induction other as [|[k v] other IH]; intros d H; cbn in *; [reflexivity|].
  apply andb_prop in H. destruct H as [Hk Ho].
  rewrite IH.
  - now rewrite keys_of_set, Hk.
  - rewrite forallb_forall in *. intros x Hx.
    apply DictFacts.mem_set. now apply Ho.
Qed.

(** X10.  [WatchlistItem(kwargs)] returns exactly when every keyword is
    one of the six parameter names and every value given for [assetType]
    is one of the five asset types (so [assetType=None], the default
    itself, is refused).  The names are checked first: an unknown name
    raises [KeyError('Invalid Argument Name.')] even when a value is
    invalid too, and an invalid value raises [KeyError('Invalid
    Value.')]. *)
Theorem watchlist_init_outcome (kwargs : pydict) (i0 : WatchlistItem.Item) :
  fst (WatchlistItem.__init__ kwargs i0)
  = if names_known kwargs then
      if values_allowed kwargs then Ok tt
      else Raise (KeyError "Invalid Value.")
    else Raise (KeyError "Invalid Argument Name.").
Proof.
  unfold WatchlistItem.__init__, WatchlistItem.validate_watchlist.
  rewrite bind_modify.
  set (j := {| WatchlistItem.argument_types := _ |}).
  pose proof (check_names_run (map fst kwargs) j eq_refl) as C.
  pose proof (validate_items_run kwargs j eq_refl) as V.
  unfold names_known, values_allowed.
  destruct (forallb _ (map fst kwargs)).
  - rewrite (bind_ok _ _ _ _ _ C), bind_bind.
    destruct (forallb _ kwargs).
    + rewrite (bind_ok _ _ _ _ _ V), bind_ret. reflexivity.
    + unfold bind at 1.
      destruct (WatchlistItem.validate_items kwargs j) as [[[]|e] j2];
        cbn [fst] in V; [discriminate V|].
      inversion V. reflexivity.
  - unfold bind at 1.
    destruct (WatchlistItem.check_names (map fst kwargs) j) as [[[]|e] j1];
      cbn [fst] in C; [discriminate C|].
    inversion C. reflexivity.
Qed.

(** X11.  An item that was built holds exactly the six parameters, in
    their default order, whatever keywords it was given; and the JSON
    document [create_watchlist_json] makes of it has exactly five members,
    [quantity], [averagePrice], [commission], [purchasedDate] and
    [instrument], in that order, the first four with the values the item
    held. *)
Theorem watchlist_item_members (kwargs : pydict)
    (i0 i1 : WatchlistItem.Item) :
  WatchlistItem.__init__ kwargs i0 = (Ok tt, i1) ->
  map fst (WatchlistItem.query_parameters i1)
  = ["quantity"; "averagePrice"; "commission"; "purchasedDate"; "symbol";
     "assetType"]
  /\ exists i2 : WatchlistItem.Item,
       WatchlistItem.create_watchlist_json i1
       = (Ok (json_dumps (VDict (WatchlistItem.query_parameters i2))), i2)
       /\ map fst (WatchlistItem.query_parameters i2)
          = ["quantity"; "averagePrice"; "commission"; "purchasedDate";
             "instrument"]
       /\ forall k : string,
            In k ["quantity"; "averagePrice"; "commission"; "purchasedDate"] ->
            Dict.get k (WatchlistItem.query_parameters i2)
            = Dict.get k (WatchlistItem.query_parameters i1).
Proof.
  intros Hinit.
  pose proof (init_query_parameters kwargs i0 i1 Hinit) as Hq.
  assert (Hn : forallb
                 (fun k => Dict.mem k WatchlistItem.default_query_parameters)
                 (map fst kwargs) = true).
  { unfold WatchlistItem.__init__ in Hinit. rewrite bind_modify in Hinit.
    match type of Hinit with
    | bind _ _ ?j = _ =>
        pose proof (check_names_run (map fst kwargs) j eq_refl) as C
    end.
    destruct (forallb _ (map fst kwargs)); [reflexivity|].
    unfold bind at 1 in Hinit.
    destruct (WatchlistItem.check_names (map fst kwargs) _) as [[[]|e] j1];
      cbn [fst] in C; [discriminate C | discriminate Hinit]. }
  assert (Hkeys : map fst (WatchlistItem.query_parameters i1)
                  = ["quantity"; "averagePrice"; "commission";
                     "purchasedDate"; "symbol"; "assetType"]).
  { rewrite Hq, (keys_of_update _ _ Hn). reflexivity. }
  split; [exact Hkeys|].
  assert (Hs : Dict.mem "symbol" (WatchlistItem.query_parameters i1) = true)
    by (rewrite mem_keys, Hkeys; reflexivity).
  assert (Ha : Dict.mem "assetType" (WatchlistItem.query_parameters i1) = true)
    by (rewrite mem_keys, Hkeys; reflexivity).
  unfold Dict.mem in Hs, Ha.
  destruct (Dict.get "symbol" (WatchlistItem.query_parameters i1))
    as [symbol|] eqn:Es; [|discriminate Hs].
  destruct (Dict.get "assetType" (WatchlistItem.query_parameters i1))
    as [asset|] eqn:Ea; [|discriminate Ha].
  eexists. split.
  { unfold WatchlistItem.create_watchlist_json.
    rewrite bind_gets, bind_or_raise, Es, bind_or_raise, Ea.
    rewrite !bind_modify, bind_gets. reflexivity. }
  cbn [WatchlistItem.query_parameters WatchlistItem.with_query_parameters].
  split.
  - rewrite keys_of_set, mem_keys, !keys_of_remove, Hkeys. reflexivity.
  - intros k Hk.
    assert (N1 : ("instrument" =? k)%string = false
                 /\ ("assetType" =? k)%string = false
                 /\ ("symbol" =? k)%string = false).
    { cbn [In] in Hk.
      destruct Hk as [<- | [<- | [<- | [<- | []]]]]; repeat split. }
    destruct N1 as (N1 & N2 & N3).
    rewrite DictFacts.get_set_other by exact N1.
    rewrite DictFacts.get_remove_other by exact N2.
    now rewrite DictFacts.get_remove_other by exact N3.
Qed.

End ConstructionProperties.

(** ** The endpoint methods *)

Section EndpointProperties.

Context {rt : Runtime}.

Variable table : list (string * list (string * list string)).

Lemma strings_of_map (ms : list string) : strings_of (map VStr ms) = Some ms.
Proof.
  induction ms as [|m ms IH]; cbn [map strings_of]; [reflexivity|].
  now rewrite IH.
Qed.

(** The validator on a list of strings and on a single string. *)
Lemma validate_list (endpoint name : string)
    (ps : list (string * list string)) (allowed ms : list string) :
  lookup endpoint table = Some ps ->
  lookup name ps = Some allowed ->
  _validate_arguments table endpoint name (VList (map VStr ms))
  = if forallb (fun m => str_in m allowed) ms then Ok true
    else Raise (ValueError (validation_message (Str.join " ," allowed))).
Proof.
  intros H1 H2. unfold _validate_arguments. rewrite H1, H2.
  cbn [py_iter]. rewrite map_map. cbn [argument_in].
  rewrite existsb_negb_map.
  now destruct (forallb (fun m => str_in m allowed) ms).
Qed.

Lemma validate_string (endpoint name : string)
    (ps : list (string * list string)) (allowed : list string) (m : string) :
  lookup endpoint table = Some ps ->
  lookup name ps = Some allowed ->
  _validate_arguments table endpoint name (VStr m)
  = if str_in m allowed then Ok true
    else Raise (ValueError (validation_message (Str.join " ," allowed))).
Proof.
  intros H1 H2. unfold _validate_arguments. rewrite H1, H2.
  cbn [map argument_in existsb]. now destruct (str_in m allowed).
Qed.

Lemma bind_validate {B : Type} (endpoint name : string) (a : value)
    (k : bool -> Py B) (s : Session) :
  bind (validate table endpoint name a) k s
  = match _validate_arguments table endpoint name a with
    | Ok b => k b s
    | Raise e => (Raise e, s)
    end.
Proof.
  unfold bind, validate, lift.
  now destruct (_validate_arguments table endpoint name a).
Qed.

(** X12.  [search_instruments] with [projection] left at its default,
    [None], never reaches the server: it raises with the session left as
    it was, whatever the validation table holds.  When the table has the
    entry for the projection, the exception is the [TypeError] of
    iterating over [None]. *)
Theorem search_instruments_default_projection (symbol : value)
    (s : Session) :
  (exists e : exn, search_instruments table symbol VNone s = (Raise e, s))
  /\ (forall (ps : list (string * list string)) (allowed : list string),
        lookup "search_instruments" table = Some ps ->
        lookup "projection" ps = Some allowed ->
        search_instruments table symbol VNone s = (Raise TypeError, s)).
Proof.
  unfold search_instruments. rewrite bind_validate.
  unfold _validate_arguments. split.
  - destruct (lookup "search_instruments" table) as [ps|];
      [|eexists; reflexivity].
    destruct (lookup "projection" ps); eexists; reflexivity.
  - intros ps allowed H1 H2. now rewrite H1, H2.
Qed.

(** X13.  [get_market_hours] on a list of markets.  When every market is
    permitted, the method is the GET dispatch to ['marketdata/hours'] whose
    [markets] parameter is the markets joined by commas.  When some market
    is not permitted it raises the validator's [ValueError] and leaves the
    session as it was: nothing is sent, printed or stored. *)
Theorem get_market_hours_checked (ms : list string) (date : value)
    (ps : list (string * list string)) (allowed : list string)
    (s : Session) :
  lookup "get_market_hours" table = Some ps ->
  lookup "markets" ps = Some allowed ->
  (forallb (fun m => str_in m allowed) ms = true ->
   get_market_hours table (VList (map VStr ms)) date s
   = _make_request "get" "marketdata/hours" None
       (VDict [ ("apikey", VStr (client_id s));
                ("markets", VStr (Str.join "," ms));
                ("date", date) ])
       VNone VNone false s)
  /\ (forallb (fun m => str_in m allowed) ms = false ->
      get_market_hours table (VList (map VStr ms)) date s
      = (Raise (ValueError (validation_message (Str.join " ," allowed))), s)).
Proof.
  intros H1 H2. unfold get_market_hours.
  rewrite bind_validate, (validate_list _ _ ps allowed ms H1 H2).
  split; intros ->; [|reflexivity].
  unfold _prepare_arguments_list. rewrite strings_of_map.
  now rewrite bind_ret, bind_gets.
Qed.

Lemma join_chars_length (m : string) :
  String.length (Str.join "," (chars m))
  = (2 * String.length m - 1)%nat.
Proof.
  unfold Str.join.
  induction m as [|c m IH]; [reflexivity|].
  destruct m as [|c' m]; [reflexivity|].
  cbn [chars String.concat String.append String.length] in *.
  rewrite IH. lia.
Qed.

(** X14.  A single market or symbol given as a plain string, which the
    validator accepts as it accepts a list, is not sent as it is:
    [','.join] iterates over the characters of the string, so
    [get_market_hours] and [get_quotes] request the characters joined by
    commas, a text of [2n - 1] characters for a name of [n] characters,
    which differs from the name as soon as it has two characters. *)
Theorem single_string_is_split (m : string) (date : value)
    (ps : list (string * list string)) (allowed : list string)
    (s : Session) :
  lookup "get_market_hours" table = Some ps ->
  lookup "markets" ps = Some allowed ->
  str_in m allowed = true ->
  get_market_hours table (VStr m) date s
  = _make_request "get" "marketdata/hours" None
      (VDict [ ("apikey", VStr (client_id s));
               ("markets", VStr (Str.join "," (chars m)));
               ("date", date) ])
      VNone VNone false s
  /\ get_quotes (VStr m) s
     = _make_request "get" "marketdata/quotes" None
         (VDict [ ("apikey", VStr (client_id s));
                  ("symbol", VStr (Str.join "," (chars m))) ])
         VNone VNone false s
  /\ String.length (Str.join "," (chars m))
     = (2 * String.length m - 1)%nat
  /\ ((2 <= String.length m)%nat -> Str.join "," (chars m) <> m).
Proof.
  intros H1 H2 Hin.
  split; [|split; [|split]].
  - unfold get_market_hours.
    rewrite bind_validate, (validate_string _ _ ps allowed m H1 H2), Hin.
    reflexivity.
  - reflexivity.
  - apply join_chars_length.
  - intros Hlen E. pose proof (join_chars_length m) as L.
    rewrite E in L. lia.
Qed.

(** X15.  [get_movers] validates its three arguments, in the order
    [market], [direction], [change], before it does anything else.  When
    all three are permitted it is the GET dispatch to
    ['marketdata/<market>/movers'] with [direction] and [change] as
    parameters.  Otherwise it raises the [ValueError] of the first
    argument, in that order, that is not permitted, whose message lists
    the values permitted for that argument, and the session is left as it
    was. *)
Theorem get_movers_checked (market direction change : string)
    (ps : list (string * list string)) (ms ds cs : list string)
    (s : Session) :
  lookup "get_movers" table = Some ps ->
  lookup "market" ps = Some ms ->
  lookup "direction" ps = Some ds ->
  lookup "change" ps = Some cs ->
  (str_in market ms = true -> str_in direction ds = true ->
   str_in change cs = true ->
   get_movers table market direction change s
   = _make_request "get" ("marketdata/" ++ market ++ "/movers") None
       (VDict [ ("apikey", VStr (client_id s));
                ("direction", VStr direction);
                ("change", VStr change) ])
       VNone VNone false s)
  /\ (str_in market ms = false ->
      get_movers table market direction change s
      = (Raise (ValueError (validation_message (Str.join " ," ms))), s))
  /\ (str_in market ms = true -> str_in direction ds = false ->
      get_movers table market direction change s
      = (Raise (ValueError (validation_message (Str.join " ," ds))), s))
  /\ (str_in market ms = true -> str_in direction ds = true ->
      str_in change cs = false ->
      get_movers table market direction change s
      = (Raise (ValueError (validation_message (Str.join " ," cs))), s)).
Proof.
  intros H0 H1 H2 H3. unfold get_movers. cbv zeta.
  cbn [validate_each]. rewrite !bind_bind.
  rewrite bind_validate, (validate_string _ _ ps ms market H0 H1).
  split; [|split; [|split]].
  - intros Hm Hd Hc.
    rewrite Hm. cbn beta. rewrite !bind_bind.
    rewrite bind_validate, (validate_string _ _ ps ds direction H0 H2), Hd.
    cbn beta. rewrite !bind_bind.
    rewrite bind_validate, (validate_string _ _ ps cs change H0 H3), Hc.
    now rewrite !bind_ret, bind_gets.
  - intros Hm. now rewrite Hm.
  - intros Hm Hd. rewrite Hm. cbn beta. rewrite !bind_bind.
    rewrite bind_validate, (validate_string _ _ ps ds direction H0 H2), Hd.
    reflexivity.
  - intros Hm Hd Hc. rewrite Hm. cbn beta. rewrite !bind_bind.
    rewrite bind_validate, (validate_string _ _ ps ds direction H0 H2), Hd.
    cbn beta. rewrite !bind_bind.
    rewrite bind_validate, (validate_string _ _ ps cs change H0 H3), Hc.
    reflexivity.
Qed.

(** Splitting on a comma a text whose first comma comes after [p]. *)
Lemma split_comma (p r : string) :
  Str.contains "," p = false ->
  Str.split "," (p ++ "," ++ r) = p :: Str.split "," r.
Proof.
  intros H. unfold Str.split at 1.
  rewrite (StrFacts.split_from_prefix ","%char "" p r); [reflexivity|].
  induction p as [|c p IH]; [reflexivity|].
  cbn [Str.contains] in H. apply orb_false_elim in H as [H1 H2].
  cbn [StrFacts.early]. rewrite (IH H2), orb_false_r.
  change ((String c p ++ "," ++ r)%string) with (String c (p ++ "," ++ r)).
  cbn [Str.starts_with] in H1 |- *.
  destruct (Ascii.eqb "," c); [discriminate H1 | reflexivity].
Qed.

(** X22.  [_prepare_arguments_list] loses nothing on a non-empty list of
    names that contain no comma: it returns one text, and splitting that
    text on commas gives the list back. *)
Theorem prepare_arguments_list_round_trip (m : string) (ms : list string)
    (s : Session) :
  forallb (fun x => negb (Str.contains "," x)) (m :: ms) = true ->
  exists joined : string,
    _prepare_arguments_list (VList (map VStr (m :: ms))) s = (Ok joined, s)
    /\ Str.split "," joined = m :: ms.
Proof.
  intros H. exists (Str.join "," (m :: ms)). split.
  - unfold _prepare_arguments_list. now rewrite strings_of_map.
  - unfold Str.join. revert m H.
    induction ms as [|m' ms IH]; intros m H.
    + cbn [forallb] in H. rewrite andb_true_r in H.
      apply negb_true_iff in H.
      cbn [String.concat]. now apply StrFacts.split_single.
    + cbn [forallb] in H. apply andb_prop in H as [Hm H].
      apply negb_true_iff in Hm.
      change (String.concat "," (m :: m' :: ms))
        with (m ++ "," ++ String.concat "," (m' :: ms))%string.
      rewrite (split_comma m _ Hm). f_equal. now apply IH.
Qed.

(** X16.  [get_transactions] with a transaction identifier discards the
    account it was given: the method rebinds [account] to [None] before it
    builds the endpoint, so the request goes to
    ['accounts/' + str(None) + '/transactions/<id>'] for every account.
    With an identifier that is not [None] but empty (or zero), the type is
    not validated either, and the list request is made for account
    [None], with the tuple [(None,)] for type and start date. *)
Theorem get_transactions_by_id_drops_account
    (account transaction_type symbol start_date end_date transaction_id
       : value) (s : Session) :
  (truthy transaction_id = true ->
   get_transactions account transaction_type symbol start_date end_date
     transaction_id s
   = _make_request "get"
       ("accounts/" ++ py_str VNone ++ "/transactions/"
          ++ py_str transaction_id)
       None VNone VNone VNone false s)
  /\ (transaction_id <> VNone ->
      truthy transaction_id = false ->
      get_transactions account transaction_type symbol start_date end_date
        transaction_id s
      = _make_request "get"
          ("/accounts/" ++ py_str VNone ++ "/transactions") None
          (VDict [ ("type", VList [VNone]);
                   ("symbol", symbol);
                   ("startDate", VList [VNone]);
                   ("endDate", VNone) ])
          VNone VNone false s).
Proof.
  unfold get_transactions. split.
  - intros Ht.
    assert (Hn : is_not_none transaction_id = true)
      by (destruct transaction_id; [discriminate Ht | reflexivity ..]).
    now rewrite Hn, bind_ret, Ht.
  - intros Hne Ht.
    assert (Hn : is_not_none transaction_id = true)
      by (destruct transaction_id; [congruence | reflexivity ..]).
    now rewrite Hn, bind_ret, Ht.
Qed.

(** X17.  [get_transactions] without a transaction identifier checks the
    transaction type first.  A type that is not one of the ten names,
    [None] (the default) included, prints a notice and raises
    [ValueError('Bad Input')]; nothing is sent.  A type that is one of
    them leads to the GET dispatch to ['/accounts/<account>/transactions']
    (the endpoint begins with a slash) with the four parameters. *)
Theorem get_transactions_checks_type
    (account transaction_type symbol start_date end_date : value)
    (s : Session) :
  (argument_in transaction_types transaction_type = false ->
   get_transactions account transaction_type symbol start_date end_date
     VNone s
   = (Raise (ValueError "Bad Input"),
      with_stdout
        (stdout s
         ++ [ mkPrinted
                "The type of transaction type you specified is not valid."
                [] ]) s))
  /\ (argument_in transaction_types transaction_type = true ->
      get_transactions account transaction_type symbol start_date end_date
        VNone s
      = _make_request "get"
          ("/accounts/" ++ py_str account ++ "/transactions") None
          (VDict [ ("type", transaction_type);
                   ("symbol", symbol);
                   ("startDate", start_date);
                   ("endDate", end_date) ])
          VNone VNone false s).
Proof.
  unfold get_transactions. cbn [is_not_none truthy].
  split; intros ->; cbn [negb]; [reflexivity|].
  now rewrite bind_ret.
Qed.

(** X18.  [create_saved_order] cannot succeed: for every account and
    every payload, an [Order] object or not, it raises [UnboundLocalError]
    for the name [order], and the session is left as it was, so no saved
    order is ever posted. *)
Theorem create_saved_order_always_raises (account : string)
    (is_order : bool) (saved_order : value) (s : Session) :
  create_saved_order account is_order saved_order s
  = (Raise (UnboundLocalError "order"), s)
  /\ sent (snd (create_saved_order account is_order saved_order s)) = sent s.
Proof.
  unfold create_saved_order.
  destruct is_order; rewrite bind_raise_now; split; reflexivity.
Qed.

Variable chart : list (string * list (string * list Z)).

(** X19.  What [get_price_history] refuses, and what it lets through.
    Every refusal leaves the session as it was.
    - Dates and a period together: [ValueError].
    - A period without dates whose frequency type, period type and period
      do not fit the chart table: [KeyError] with the message about the
      frequency type or period type, also when only the period is wrong
      (the [IndexError('Invalid Period.')] of the source never leaves the
      method).
    - A period without dates that fits, with frequency type ['minute'] and
      a frequency other than 1, 5, 10, 15, 30: [ValueError].
    - Without a period, or with one date only, nothing is checked at
      all: the request is dispatched as given. *)
Theorem get_price_history_checks (symbol : string)
    (period_type period start_date end_date frequency_type frequency
       extended_hours : value) (s : Session) :
  (truthy start_date = true -> truthy end_date = true ->
   truthy period = true ->
   get_price_history chart symbol period_type period start_date end_date
     frequency_type frequency extended_hours s
   = (Raise (ValueError "Cannot have Period with start date and end date"),
      s))
  /\ (truthy start_date = false -> truthy end_date = false ->
      truthy period = true ->
      period_valid chart frequency_type period_type period = false ->
      get_price_history chart symbol period_type period start_date end_date
        frequency_type frequency extended_hours s
      = (Raise (KeyError ("Invalid Frequency Type or Period Type you "
                          ++ "passed through is not valid")), s))
  /\ (truthy start_date = false -> truthy end_date = false ->
      truthy period = true ->
      period_valid chart frequency_type period_type period = true ->
      is_str frequency_type "minute" = true ->
      num_in frequency [1; 5; 10; 15; 30] = false ->
      get_price_history chart symbol period_type period start_date end_date
        frequency_type frequency extended_hours s
      = (Raise (ValueError "Invalid Minute Frequency, must be 1,5,10,15,30"),
         s))
  /\ (truthy period = false \/ truthy start_date <> truthy end_date ->
      get_price_history chart symbol period_type period start_date end_date
        frequency_type frequency extended_hours s
      = _make_request "get" ("marketdata/" ++ symbol ++ "/pricehistory") None
          (VDict [ ("apikey", VStr (client_id s));
                   ("period", period);
                   ("periodType", period_type);
                   ("startDate", start_date);
                   ("endDate", end_date);
                   ("frequency", frequency);
                   ("frequencyType", frequency_type);
                   ("needExtendedHoursData", extended_hours) ])
          VNone VNone false s).
Proof.
  unfold get_price_history.
  split; [|split; [|split]].
  - intros -> -> ->. reflexivity.
  - intros -> -> -> ->. reflexivity.
  - intros -> -> -> -> -> ->. reflexivity.
  - intros H.
    assert (E : truthy start_date && truthy end_date && truthy period = false
                /\ negb (truthy start_date) && negb (truthy end_date)
                   && truthy period = false).
    { destruct H as [-> | H].
      - now rewrite !andb_false_r.
      - destruct (truthy start_date), (truthy end_date);
          try congruence; now split. }
    destruct E as [-> ->]. now rewrite bind_ret, bind_gets.
Qed.

Variable parse : value -> res (list (string * list string)).

(** X20.  [grab_access_token] takes the authorization code to be the
    first value of the first parameter of the pasted redirect URL,
    whatever the parameter is called.  A URL without parameters raises
    [IndexError] with the session untouched.  Otherwise exactly one
    request is sent, whether the method then returns or raises: a POST to
    the token endpoint, without [Authorization] header, whose form data
    are the grant type, the client id followed by ['@AMER.OAUTHAP'], the
    access type, that code and the redirect URI. *)
Theorem grab_access_token_code (s : Session) (code tok : value) :
  Dict.get "redirect_code" (state s) = Some code ->
  Dict.get "access_token" (state s) = Some tok ->
  (parse code = Ok [] ->
   grab_access_token parse s = (Raise IndexError, s))
  /\ (forall (name c : string) (cs : list string)
             (rest : list (string * list string)),
        parse code = Ok ((name, c :: cs) :: rest) ->
        sent (snd (grab_access_token parse s))
        = (sent s
           ++ [ {| req_method := "post";
                   req_url :=
                     Str.join "/" [ api_endpoint (config s);
                                    api_version (config s);
                                    token_endpoint (config s) ];
                   req_headers :=
                     [ ("Content-Type",
                        VStr "application/x-www-form-urlencoded") ];
                   req_params := VNone;
                   req_data :=
                     VDict [ ("grant_type", VStr "authorization_code");
                             ("client_id",
                              VStr (client_id s ++ "@AMER.OAUTHAP"));
                             ("access_type", VStr "offline");
                             ("code", VStr c);
                             ("redirect_uri", VStr (redirect_uri s)) ];
                   req_json := VNone |} ])%list).
Proof.
  intros Hcode Ht. unfold grab_access_token.
  rewrite bind_state_get, Hcode.
  split.
  - intros Hp. unfold bind at 1. unfold lift. rewrite Hp. reflexivity.
  - intros name c cs rest Hp.
    unfold bind at 1. unfold lift at 1. rewrite Hp.
    cbn [map snd nth_error]. rewrite !bind_or_raise, !bind_gets.
    unfold _make_request, _make_request_body.
    unfold bind at 1. unfold bind at 1.
    rewrite (send_token_request _ _ s tok Ht).
    match goal with
    | |- context [classify ?r ?od ?s1] =>
        pose proof (classify_keeps_sent r od s1) as Hc;
        destruct (classify r od s1) as [[v|e] s2]
    end; cbn [snd sent with_sent] in Hc; cbn iota beta; [|exact Hc].
    assert (K : keeps sent
                  (_token_save v ;; _state_manager "save" ;; ret true)).
    { apply keeps_bind; [apply token_save_keeps_sent|intros _].
      apply keeps_bind; [apply state_manager_keeps_sent|intros _].
      apply keeps_ret. }
    rewrite (K s2). exact Hc.
Qed.

(** The dispatch of a call by a client whose token needs no refresh. *)
Lemma dispatch_run (method endpoint : string) (mode : option string)
    (params data json : value) (od : bool) (s s1 : Session) (h : pydict)
    (a : Z) :
  (endpoint =? token_endpoint (config s))%string = false ->
  str_in method ["get"; "post"; "put"; "delete"; "patch"] = true ->
  _headers mode s = (Ok h, s) ->
  _token_seconds "access_token" s = (Ok a, s1) ->
  5 <= a \/ refresh_enabled (config s) = false ->
  _make_request method endpoint mode params data json od s
  = classify (net s1 (List.length (sent s1))) od
      (with_sent
         (sent s1
          ++ [ {| req_method := method;
                  req_url :=
                    Str.join "/" [ api_endpoint (config s);
                                   api_version (config s); endpoint ];
                  req_headers := h;
                  req_params := params;
                  req_data := data;
                  req_json := json |} ]) s1).
Proof.
  intros He Hm Hh Ha Hc.
  pose proof (token_validation_skip s s1 a Ha Hc) as Htv.
  unfold _make_request, _make_request_body.
  rewrite (bind_ok _ _ _ _ _
             (send_request_run _ method endpoint mode params data json
                s _ h He Hm Hh Htv)).
  reflexivity.
Qed.

(** X21.  [cancel_order], end to end.  The client's token needs no
    refresh and the server answers the call with status 200 or 201 and a
    [Location] header that ends in ['orders/<id>'] (with no other
    ['orders/'] in it).  Then one DELETE request goes to
    ['.../accounts/<account>/orders/<order_id>'], with the bearer token and
    no payload, and the method returns the response dictionary whose
    [order_id] is the <id> of the header. *)
Theorem cancel_order_returns_order_id (account order_id : string)
    (s s1 : Session) (tok : value) (a : Z) (p id : string) :
  ("accounts/" ++ account ++ "/orders/" ++ order_id
     =? token_endpoint (config s))%string = false ->
  Dict.get "access_token" (state s) = Some tok ->
  _token_seconds "access_token" s = (Ok a, s1) ->
  5 <= a \/ refresh_enabled (config s) = false ->
  status_code (net s (List.length (sent s))) = 200
  \/ status_code (net s (List.length (sent s))) = 201 ->
  header_get "Location" (headers (net s (List.length (sent s))))
  = Some (p ++ "orders/" ++ id) ->
  Str.contains "orders/" p = false ->
  Str.contains "orders/" id = false ->
  fst (cancel_order account order_id s)
  = Ok (response_dict (net s (List.length (sent s))) id)
  /\ sent (snd (cancel_order account order_id s))
     = (sent s
        ++ [ {| req_method := "delete";
                req_url :=
                  Str.join "/" [ api_endpoint (config s);
                                 api_version (config s);
                                 ("accounts/" ++ account ++ "/orders/"
                                    ++ order_id)%string ];
                req_headers :=
                  [("Authorization", VStr ("Bearer " ++ py_str tok))];
                req_params := VNone;
                req_data := VNone;
                req_json := VNone |} ])%list.
Proof.
  intros He Ht Ha Hc Hst Hloc Hp Hid.
  assert (Hh : _headers None s
               = (Ok [("Authorization", VStr ("Bearer " ++ py_str tok))], s)).
  { unfold _headers. now rewrite bind_state_get, Ht. }
  unfold cancel_order. cbv zeta.
  rewrite (dispatch_run "delete" _ None VNone VNone VNone true s s1 _ a
             He eq_refl Hh Ha Hc).
  destruct (token_seconds_inv _ _ _ _ Ha) as (tok' & _ & _ & k & ->).
  cbn [net sent with_ticks].
  set (r := net s (List.length (sent s))) in *.
  match goal with
  | |- context [classify r true ?s2] =>
      assert (Hoid : order_id_of (headers r) s2 = (Ok id, s2))
  end.
  { rewrite (order_id_present _ _ _ Hloc).
    rewrite (StrFacts.split_orders p id Hp).
    now rewrite (StrFacts.split_single "orders/" id Hid). }
  rewrite (classify_order_details r id _ Hst Hoid).
  split; reflexivity.
Qed.

End EndpointProperties.

(** ** The properties on concrete sessions *)

(** C1, on a logged-in client: the failed commit returns [False] and the
    client is still logged in with its old tokens. *)
Lemma token_save_failure_witness :
  fst (_token_save error_token_response
         (session_at logged_in_state 1000
            (json_response 200 error_token_response)))
  = Ok false
  /\ state (snd (_token_save error_token_response
                   (session_at logged_in_state 1000
                      (json_response 200 error_token_response))))
     = logged_in_state.
Proof.
  exact (proj1
           (token_save_failure_keeps_state (rt := plain_runtime)
              [("error", VStr "invalid_grant")]
              (session_at logged_in_state 1000
                 (json_response 200 error_token_response))
              eq_refl)
           (or_introl eq_refl)).
Defined.

(** C2, on a client whose access token has expired: the refresh is refused,
    the state keeps the old tokens, the call returns [True]. *)
Lemma grab_refresh_token_witness :
  fst (grab_refresh_token
         (session_at logged_in_state 3000
            (json_response 200 error_token_response)))
  = Ok true
  /\ state (snd (grab_refresh_token
                   (session_at logged_in_state 3000
                      (json_response 200 error_token_response))))
     = logged_in_state.
Proof.
  pose proof (grab_refresh_token_reports_true (rt := plain_runtime)
                (session_at logged_in_state 3000
                   (json_response 200 error_token_response))
                (VStr "A0") (VStr "R0") [("error", VStr "invalid_grant")]
                eq_refl eq_refl eq_refl eq_refl eq_refl eq_refl eq_refl
                eq_refl) as H.
  exact (conj (proj1 H) (proj1 (proj2 H))).
Defined.

(** C3, the specification's example: the order identifier is ["555"]. *)
Lemma order_id_witness :
  fst (cancel_order_555 (session_with_location 200 location_555))
  = Ok (response_dict (empty_response 200 [("Location", location_555)])
          "555").
Proof.
  set (s := session_with_location 200 location_555).
  assert (Hsend :
            send_request (_token_validation 5) "delete"
              "accounts/ACCT123/orders/555" None VNone VNone VNone s
            = (Ok (empty_response 200 [("Location", location_555)]),
               snd (send_request (_token_validation 5) "delete"
                      "accounts/ACCT123/orders/555" None VNone VNone VNone s)))
    by reflexivity.
  exact (f_equal fst
           (proj1 (proj2
              (order_id_from_location (rt := plain_runtime) _ _ _ _ _ _ _ _ _
                 Hsend (or_introl eq_refl)))
              "https://api.tdameritrade.com/v1/accounts/ACCT123/" "555"
              eq_refl eq_refl eq_refl)).
Defined.

(** C3 as stated fails.  With two ["orders/"] in the header, a header that
    ends in ["orders/555"], the order identifier is the piece between them,
    ["1/"]: neither the remainder of the header after ["orders/"] nor
    ["555"].  With no ["orders/"] in the header there is no order identifier
    at all, the dispatch raises [IndexError]. *)
Lemma order_id_counterexample :
  fst (cancel_order_555 (session_with_location 200 location_two_orders))
  = Ok (response_dict
          (empty_response 200 [("Location", location_two_orders)]) "1/")
  /\ Str.remainder_after "orders/" location_two_orders = Some "1/orders/555"
  /\ "1/" <> "1/orders/555"
  /\ "1/" <> "555"
  /\ fst (cancel_order_555 (session_with_location 201 location_watchlist))
     = Raise IndexError.
Proof.
  split; [reflexivity|]. split; [reflexivity|].
  split; [discriminate|]. split; [discriminate|].
  reflexivity.
Qed.




(** C6, with 1800 seconds left on the access token: [True], and nothing
    was sent. *)
Lemma silent_sso_witness :
  _silent_sso
    (session_at logged_in_state 1000 (json_response 200 good_token_response))
  = (Ok true,
     with_ticks 2
       (session_at logged_in_state 1000
          (json_response 200 good_token_response)))
  /\ sent (with_ticks 2
             (session_at logged_in_state 1000
                (json_response 200 good_token_response)))
     = [].
Proof.
  refine (proj1
            (silent_sso_cases (rt := plain_runtime)
               (session_at logged_in_state 1000
                  (json_response 200 good_token_response))
               (with_ticks 2
                  (session_at logged_in_state 1000
                     (json_response 200 good_token_response)))
               1800 eq_refl)
            _).
  reflexivity.
Defined.



(** C8, a 401 with a [Location] header that has no ["orders/"]: the
    dispatch raises [IndexError]. *)
Lemma dispatch_error_status_witness :
  fst (cancel_order_555 (session_with_location 401 location_auth))
  = Raise IndexError
  /\ stdout (snd (cancel_order_555 (session_with_location 401 location_auth)))
     = [].
Proof.
  set (s := session_with_location 401 location_auth).
  assert (Hsend :
            send_request (_token_validation 5) "delete"
              "accounts/ACCT123/orders/555" None VNone VNone VNone s
            = (Ok (empty_response 401 [("Location", location_auth)]),
               snd (send_request (_token_validation 5) "delete"
                      "accounts/ACCT123/orders/555" None VNone VNone VNone s)))
    by reflexivity.
  assert (Hst : In 401 [400; 401; 403; 415; 500]) by (right; left; reflexivity).
  pose proof (proj1
                (dispatch_error_status (rt := plain_runtime) _ _ _ _ _ _ true
                   _ _ _ Hsend Hst)
                location_auth eq_refl eq_refl) as H.
  unfold cancel_order_555. rewrite H. split; reflexivity.
Defined.

(** C9, on a logged-in client: the second [save] writes the file of the
    first. *)
Lemma save_twice_witness :
  file (snd (_state_manager "save"
               (session_at logged_in_state 1000
                  (json_response 200 good_token_response))))
  = Some (VDict logged_in_state)
  /\ file (snd (_state_manager "save"
                  (snd (_state_manager "save"
                          (session_at logged_in_state 1000
                             (json_response 200 good_token_response))))))
     = Some (VDict logged_in_state).
Proof.
  pose proof (save_twice_same_file (rt := plain_runtime)
                (session_at logged_in_state 1000
                   (json_response 200 good_token_response))
                (session_at logged_in_state 1000
                   (json_response 200 good_token_response))
                eq_refl eq_refl eq_refl) as (H1 & _ & H3 & _).
  split; [exact H1|]. rewrite H3. exact H1.
Defined.

(** C10, on [WatchlistItem(symbol='AAPL', assetType='EQUITY')]: the first
    call returns, the second raises [KeyError('symbol')]. *)
Lemma create_watchlist_json_witness :
  exists (i2 : WatchlistItem.Item) (symbol asset : value),
    WatchlistItem.create_watchlist_json (rt := plain_runtime)
      (snd (WatchlistItem.__init__ watchlist_kwargs blank_item))
    = (Ok (VDict (WatchlistItem.query_parameters i2)), i2)
    /\ Dict.get "symbol"
         (WatchlistItem.query_parameters
            (snd (WatchlistItem.__init__ watchlist_kwargs blank_item)))
       = Some symbol
    /\ Dict.get "assetType"
         (WatchlistItem.query_parameters
            (snd (WatchlistItem.__init__ watchlist_kwargs blank_item)))
       = Some asset
    /\ Dict.get "symbol" (WatchlistItem.query_parameters i2) = None
    /\ Dict.get "assetType" (WatchlistItem.query_parameters i2) = None
    /\ Dict.get "instrument" (WatchlistItem.query_parameters i2)
       = Some (VDict [("symbol", symbol); ("assetType", asset)])
    /\ WatchlistItem.create_watchlist_json (rt := plain_runtime) i2
       = (Raise (KeyError "symbol"), i2).
Proof.
  exact (create_watchlist_json_not_repeatable (rt := plain_runtime)
           watchlist_kwargs blank_item
           (snd (WatchlistItem.__init__ watchlist_kwargs blank_item))
           eq_refl).
Defined.

(** ** The further properties on concrete sessions *)

(** X1, a quote request by a logged-in client: one GET, with the bearer
    token. *)
Lemma dispatch_sends_one_request_witness :
  exists req : Request,
    sent (snd (_make_request "get" "marketdata/quotes" None VNone VNone VNone
                 false (fresh_session charset_response)))
    = [req]
    /\ req_method req = "get"
    /\ req_url req = "https://api.tdameritrade.com/v1/marketdata/quotes"
    /\ Dict.get "Authorization" (req_headers req)
       = Some (VStr "Bearer A0").
Proof.
  assert (H5 : 5 <= 1800) by lia.
  assert (Hs : _token_seconds "access_token" (fresh_session charset_response)
               = (Ok 1800, with_ticks 2 (fresh_session charset_response)))
    by (vm_compute; reflexivity).
  destruct (dispatch_sends_one_request (rt := plain_runtime)
              "get" "marketdata/quotes" None VNone VNone VNone false
              (fresh_session charset_response)
              (with_ticks 2 (fresh_session charset_response))
              (VStr "A0") 1800 eq_refl eq_refl eq_refl Hs
              (or_introl H5))
    as (h & req & Hreq & Hauth & _ & Hsent & _).
  exists req. split; [exact Hsent|].
  rewrite Hreq. repeat split. exact Hauth.
Defined.

(** X2, a quote request by a client whose token has expired: the refresh
    stores the access token [A], and the request still carries [A0]. *)
Lemma dispatch_after_refresh_witness :
  exists refresh req : Request,
    sent (snd (_make_request "get" "marketdata/quotes" None VNone VNone VNone
                 false expired_session))
    = [refresh; req]
    /\ req_url refresh = "https://api.tdameritrade.com/v1/oauth2/token"
    /\ Dict.get "Authorization" (req_headers req) = Some (VStr "Bearer A0")
    /\ Dict.get "access_token"
         (state (snd (_make_request "get" "marketdata/quotes" None VNone
                        VNone VNone false expired_session)))
       = Some (VStr "A").
Proof.
  assert (H5 : 0 < 5) by lia.
  assert (Hs : _token_seconds "access_token" expired_session
               = (Ok 0, with_ticks 1 expired_session))
    by (vm_compute; reflexivity).
  assert (Hg : grab_refresh_token (with_ticks 1 expired_session)
               = (Ok true,
                  snd (grab_refresh_token (with_ticks 1 expired_session))))
    by (vm_compute; reflexivity).
  destruct (dispatch_after_refresh_sends_old_token (rt := plain_runtime)
              "get" "marketdata/quotes" None VNone VNone VNone false
              expired_session (with_ticks 1 expired_session)
              (snd (grab_refresh_token (with_ticks 1 expired_session)))
              (VStr "A0") (VStr "R0") 0 true
              eq_refl eq_refl eq_refl eq_refl Hs H5 eq_refl Hg)
    as (h & refresh & req & Hauth & Hreq & _ & Hurl & _ & _ & _ & Hsent).
  exists refresh, req. split; [exact Hsent|]. split; [exact Hurl|].
  split; [rewrite Hreq; exact Hauth | vm_compute; reflexivity].
Defined.

(** X3, the same request when the token endpoint answers 401. *)
Lemma dispatch_refresh_rejected_witness :
  fst (_make_request "get" "marketdata/quotes" None VNone VNone VNone false
         (session_at logged_in_state 3000 (empty_response 401 [])))
  = Raise TypeError
  /\ List.length
       (sent (snd (_make_request "get" "marketdata/quotes" None VNone VNone
                     VNone false
                     (session_at logged_in_state 3000
                        (empty_response 401 [])))))
     = 1%nat.
Proof.
  assert (H5 : 0 < 5) by lia.
  assert (Hs : _token_seconds "access_token"
                 (session_at logged_in_state 3000 (empty_response 401 []))
               = (Ok 0,
                  with_ticks 1
                    (session_at logged_in_state 3000
                       (empty_response 401 []))))
    by (vm_compute; reflexivity).
  destruct (dispatch_refresh_rejected (rt := plain_runtime)
              "get" "marketdata/quotes" None VNone VNone VNone false
              (session_at logged_in_state 3000 (empty_response 401 []))
              (with_ticks 1
                 (session_at logged_in_state 3000 (empty_response 401 [])))
              (VStr "A0") (VStr "R0") 0
              eq_refl eq_refl eq_refl Hs H5 eq_refl
              (or_intror (or_introl eq_refl)) eq_refl)
    as (Hres & Hsent & _).
  split; [exact Hres|]. rewrite Hsent. reflexivity.
Defined.

(** X4, the method name in upper case. *)
Lemma dispatch_unknown_method_witness :
  _make_request "GET" "marketdata/quotes" None VNone VNone VNone false
    (fresh_session charset_response)
  = (Raise (UnboundLocalError "response"),
     with_ticks 2 (fresh_session charset_response)).
Proof.
  assert (H5 : 5 <= 1800) by lia.
  assert (Hs : _token_seconds "access_token" (fresh_session charset_response)
               = (Ok 1800, with_ticks 2 (fresh_session charset_response)))
    by (vm_compute; reflexivity).
  exact (proj1
           (proj2 (dispatch_unknown_method (rt := plain_runtime)
                     "GET" "marketdata/quotes" None VNone VNone VNone false
                     (fresh_session charset_response) (VStr "A0")
                     eq_refl eq_refl)
              1800 (with_ticks 2 (fresh_session charset_response))
              eq_refl Hs (or_introl H5))).
Defined.

(** X5, a 404. *)
Lemma dispatch_unlisted_status_witness :
  _make_request "get" "marketdata/quotes" None VNone VNone VNone false
    (fresh_session (empty_response 404 []))
  = (Ok VNone,
     snd (send_request (_token_validation 5) "get" "marketdata/quotes" None
            VNone VNone VNone (fresh_session (empty_response 404 []))))
  /\ stdout
       (snd (_make_request "get" "marketdata/quotes" None VNone VNone VNone
               false (fresh_session (empty_response 404 []))))
     = [].
Proof.
  assert (Hsend :
            send_request (_token_validation 5) "get" "marketdata/quotes" None
              VNone VNone VNone (fresh_session (empty_response 404 []))
            = (Ok (empty_response 404 []),
               snd (send_request (_token_validation 5) "get"
                      "marketdata/quotes" None VNone VNone VNone
                      (fresh_session (empty_response 404 [])))))
    by (vm_compute; reflexivity).
  pose proof (dispatch_unlisted_status_silent (rt := plain_runtime)
                _ _ _ _ _ _ false _ _ _ Hsend eq_refl (or_introl eq_refl))
    as H.
  split; [exact H|]. rewrite H. vm_compute. reflexivity.
Defined.

(** X6, a JSON body announced as ['application/json; charset=utf-8']. *)
Lemma dispatch_success_body_witness :
  _make_request "get" "marketdata/quotes" None VNone VNone VNone false
    (fresh_session charset_response)
  = (Ok VNone,
     snd (send_request (_token_validation 5) "get" "marketdata/quotes" None
            VNone VNone VNone (fresh_session charset_response))).
Proof.
  assert (Hsend :
            send_request (_token_validation 5) "get" "marketdata/quotes" None
              VNone VNone VNone (fresh_session charset_response)
            = (Ok charset_response,
               snd (send_request (_token_validation 5) "get"
                      "marketdata/quotes" None VNone VNone VNone
                      (fresh_session charset_response))))
    by (vm_compute; reflexivity).
  assert (N1 : "application/json; charset=utf-8"
               <> "application/json;charset=UTF-8") by discriminate.
  assert (N2 : "application/json; charset=utf-8" <> "application/json")
    by discriminate.
  exact (proj2
           (proj2 (dispatch_success_body (rt := plain_runtime)
                     _ _ _ _ _ _ _ _ _ Hsend (or_introl eq_refl) eq_refl)
              "application/json; charset=utf-8" eq_refl)
           N1 N2).
Defined.


(** X9, a new client over a session file that holds an access token: the
    token comes from the file, the [loggedin] flag from the defaults. *)
Lemma init_state_from_file_witness :
  Dict.get "access_token"
    (state (snd (__init__ "CLIENT" "https://localhost" None None
                   session_with_file)))
  = Some (VStr "A1")
  /\ Dict.get "loggedin"
       (state (snd (__init__ "CLIENT" "https://localhost" None None
                      session_with_file)))
     = Some (VBool false).
Proof.
  assert (Hwf : wf [("access_token", VStr "A1")]).
  { unfold wf. cbn [map fst]. constructor; [intros [] | constructor]. }
  destruct (proj2 (init_state_from_file (rt := plain_runtime)
                     "CLIENT" "https://localhost" None None
                     session_with_file)
              (VDict [("access_token", VStr "A1")])
              [("access_token", VStr "A1")] eq_refl eq_refl Hwf)
    as (_ & _ & H).
  split; rewrite H; reflexivity.
Defined.

(** X11, the item of the example. *)
Lemma watchlist_item_members_witness :
  map fst
    (WatchlistItem.query_parameters
       (snd (WatchlistItem.__init__ watchlist_kwargs
               blank_item)))
  = ["quantity"; "averagePrice"; "commission"; "purchasedDate"; "symbol";
     "assetType"].
Proof.
  assert (Hinit : WatchlistItem.__init__ watchlist_kwargs blank_item
                  = (Ok tt,
                     snd (WatchlistItem.__init__ watchlist_kwargs
                            blank_item)))
    by (vm_compute; reflexivity).
  exact (proj1 (watchlist_item_members (rt := plain_runtime)
                  watchlist_kwargs blank_item _ Hinit)).
Defined.

(** X12, a symbol search without a projection. *)
Lemma search_instruments_witness :
  search_instruments documented_arguments (VStr "MSFT") VNone
    (fresh_session charset_response)
  = (Raise TypeError, fresh_session charset_response).
Proof.
  exact (proj2 (search_instruments_default_projection (rt := plain_runtime)
                  documented_arguments (VStr "MSFT")
                  (fresh_session charset_response))
           _ _ eq_refl eq_refl).
Defined.

(** X13, the hours of two markets, and of a market that is not listed. *)
Lemma get_market_hours_witness :
  get_market_hours documented_arguments
    (VList [VStr "EQUITY"; VStr "FOREX"]) (VStr "2019-10-19")
    (fresh_session charset_response)
  = _make_request "get" "marketdata/hours" None
      (VDict [ ("apikey", VStr "CLIENT");
               ("markets", VStr "EQUITY,FOREX");
               ("date", VStr "2019-10-19") ])
      VNone VNone false (fresh_session charset_response)
  /\ fst (get_market_hours documented_arguments (VList [VStr "CRYPTO"])
            (VStr "2019-10-19") (fresh_session charset_response))
     = Raise (ValueError
                (validation_message "EQUITY ,OPTION ,FUTURE ,BOND ,FOREX")).
Proof.
  split.
  - exact (proj1 (get_market_hours_checked (rt := plain_runtime)
                    documented_arguments ["EQUITY"; "FOREX"]
                    (VStr "2019-10-19") _ _
                    (fresh_session charset_response) eq_refl eq_refl)
             eq_refl).
  - exact (f_equal fst
             (proj2 (get_market_hours_checked (rt := plain_runtime)
                       documented_arguments ["CRYPTO"]
                       (VStr "2019-10-19") _ _
                       (fresh_session charset_response) eq_refl eq_refl)
                eq_refl)).
Defined.

(** X14, one market given as a string. *)
Lemma single_string_witness :
  get_market_hours documented_arguments (VStr "EQUITY") (VStr "2019-10-19")
    (fresh_session charset_response)
  = _make_request "get" "marketdata/hours" None
      (VDict [ ("apikey", VStr "CLIENT");
               ("markets", VStr "E,Q,U,I,T,Y");
               ("date", VStr "2019-10-19") ])
      VNone VNone false (fresh_session charset_response).
Proof.
  exact (proj1 (single_string_is_split (rt := plain_runtime)
                  documented_arguments "EQUITY" (VStr "2019-10-19") _ _
                  (fresh_session charset_response) eq_refl eq_refl eq_refl)).
Defined.

(** X15, the movers of the docstring; and a call in which neither the
    market nor the change is permitted: the error lists the markets. *)
Lemma get_movers_witness :
  get_movers documented_arguments "$DJI" "up" "value"
    (fresh_session charset_response)
  = _make_request "get" "marketdata/$DJI/movers" None
      (VDict [ ("apikey", VStr "CLIENT");
               ("direction", VStr "up");
               ("change", VStr "value") ])
      VNone VNone false (fresh_session charset_response)
  /\ get_movers documented_arguments "$NYSE" "up" "points"
       (fresh_session charset_response)
     = (Raise (ValueError (validation_message "$DJI ,$COMPX ,$SPX.X")),
        fresh_session charset_response)
  /\ get_movers documented_arguments "$DJI" "up" "points"
       (fresh_session charset_response)
     = (Raise (ValueError (validation_message "percent ,value")),
        fresh_session charset_response).
Proof.
  split; [|split].
  - exact (proj1 (get_movers_checked (rt := plain_runtime)
                    documented_arguments "$DJI" "up" "value" _ _ _ _
                    (fresh_session charset_response)
                    eq_refl eq_refl eq_refl eq_refl)
             eq_refl eq_refl eq_refl).
  - exact (proj1 (proj2 (get_movers_checked (rt := plain_runtime)
                           documented_arguments "$NYSE" "up" "points"
                           _ _ _ _ (fresh_session charset_response)
                           eq_refl eq_refl eq_refl eq_refl))
             eq_refl).
  - exact (proj2 (proj2 (proj2 (get_movers_checked (rt := plain_runtime)
                                  documented_arguments "$DJI" "up" "points"
                                  _ _ _ _ (fresh_session charset_response)
                                  eq_refl eq_refl eq_refl eq_refl)))
             eq_refl eq_refl eq_refl).
Defined.

(** X16, a transaction of account [ACCT123] asked for by its identifier. *)
Lemma get_transactions_by_id_witness :
  get_transactions (VStr "ACCT123") VNone VNone VNone VNone (VStr "T1")
    (fresh_session charset_response)
  = _make_request "get" "accounts/None/transactions/T1" None VNone VNone
      VNone false (fresh_session charset_response).
Proof.
  exact (proj1 (get_transactions_by_id_drops_account (rt := plain_runtime)
                  (VStr "ACCT123") VNone VNone VNone VNone (VStr "T1")
                  (fresh_session charset_response))
           eq_refl).
Defined.

(** X17, the transactions of an account with the type left at its
    default. *)
Lemma get_transactions_default_type_witness :
  fst (get_transactions (VStr "ACCT123") VNone VNone VNone VNone VNone
         (fresh_session charset_response))
  = Raise (ValueError "Bad Input")
  /\ sent (snd (get_transactions (VStr "ACCT123") VNone VNone VNone VNone
                  VNone (fresh_session charset_response)))
     = [].
Proof.
  pose proof (proj1 (get_transactions_checks_type (rt := plain_runtime)
                       (VStr "ACCT123") VNone VNone VNone VNone
                       (fresh_session charset_response))
                eq_refl) as H.
  rewrite H. split; reflexivity.
Defined.

(** X19, seven days of minute candles, and ten days in candles of seven
    minutes. *)
Lemma get_price_history_witness :
  fst (get_price_history minute_chart "MSFT" (VStr "day") (VInt 7) VNone
         VNone (VStr "minute") (VInt 1) (VBool true)
         (fresh_session charset_response))
  = Raise (KeyError ("Invalid Frequency Type or Period Type you "
                     ++ "passed through is not valid"))
  /\ fst (get_price_history minute_chart "MSFT" (VStr "day") (VInt 10) VNone
            VNone (VStr "minute") (VInt 7) (VBool true)
            (fresh_session charset_response))
     = Raise (ValueError "Invalid Minute Frequency, must be 1,5,10,15,30").
Proof.
  split.
  - exact (f_equal fst
             (proj1 (proj2 (get_price_history_checks (rt := plain_runtime)
                              minute_chart "MSFT" (VStr "day") (VInt 7)
                              VNone VNone (VStr "minute") (VInt 1)
                              (VBool true)
                              (fresh_session charset_response)))
                eq_refl eq_refl eq_refl eq_refl)).
  - exact (f_equal fst
             (proj1 (proj2 (proj2
                       (get_price_history_checks (rt := plain_runtime)
                          minute_chart "MSFT" (VStr "day") (VInt 10)
                          VNone VNone (VStr "minute") (VInt 7)
                          (VBool true)
                          (fresh_session charset_response))))
                eq_refl eq_refl eq_refl eq_refl eq_refl eq_refl)).
Defined.

(** X20, the pasted redirect URL: the code [XYZ] is posted. *)
Lemma grab_access_token_witness :
  map req_data (sent (snd (grab_access_token parse_pasted pasted_session)))
  = [ VDict [ ("grant_type", VStr "authorization_code");
              ("client_id", VStr "CLIENT@AMER.OAUTHAP");
              ("access_type", VStr "offline");
              ("code", VStr "XYZ");
              ("redirect_uri", VStr "https://localhost") ] ].
Proof.
  pose proof (proj2 (grab_access_token_code (rt := plain_runtime)
                       parse_pasted pasted_session (VStr pasted_url) VNone
                       eq_refl eq_refl)
                "https://localhost/?code" "XYZ" [] [] eq_refl) as H.
  rewrite H. reflexivity.
Defined.

(** X21, cancelling order 555. *)
Lemma cancel_order_witness :
  fst (cancel_order "ACCT123" "555" (session_with_location 200 location_555))
  = Ok (response_dict (empty_response 200 [("Location", location_555)])
          "555").
Proof.
  assert (H5 : 5 <= 1800) by lia.
  assert (Hs : _token_seconds "access_token"
                 (session_with_location 200 location_555)
               = (Ok 1800,
                  with_ticks 2 (session_with_location 200 location_555)))
    by (vm_compute; reflexivity).
  exact (proj1
           (cancel_order_returns_order_id (rt := plain_runtime)
              "ACCT123" "555" (session_with_location 200 location_555) _
              (VStr "A0") 1800
              "https://api.tdameritrade.com/v1/accounts/ACCT123/" "555"
              eq_refl eq_refl Hs (or_introl H5) (or_introl eq_refl)
              eq_refl eq_refl eq_refl)).
Defined.

(** X22, two symbols. *)
Lemma prepare_arguments_list_witness :
  exists joined : string,
    _prepare_arguments_list (VList [VStr "MSFT"; VStr "SQ"])
      (fresh_session charset_response)
    = (Ok joined, fresh_session charset_response)
    /\ Str.split "," joined = ["MSFT"; "SQ"].
Proof.
  exact (prepare_arguments_list_round_trip (rt := plain_runtime)
           "MSFT" ["SQ"] (fresh_session charset_response) eq_refl).
Defined.

(** ** Further runs *)

(** No token, an expired token, and half a second past a whole number of
    seconds left. *)
Example token_seconds_runs :
  fst (_token_seconds "access_token"
         (session_at default_state 1000 (json_response 200 VNone)))
  = Ok 0
  /\ fst (_token_seconds "access_token"
            (session_at logged_in_state 2800 (json_response 200 VNone)))
     = Ok 0
  /\ fst (_token_seconds "access_token"
            (session_at logged_in_state (2001 # 2) (json_response 200 VNone)))
     = Ok 1799
  /\ fst (_token_seconds "refresh_token"
            (session_at logged_in_state 1000 (json_response 200 VNone)))
     = Ok 7776000.
Proof. repeat split. Qed.

(** Float arithmetic and the two readings of the clock.  With 1000 and
    [2^-43] seconds on the clock, the float difference to 2800 is rounded
    up to 1800.0; with an expiry that passes between the two readings by
    more than a second, the result is negative. *)
Example token_seconds_float_runs :
  round_double (2800 - (1000 + (1 # 8796093022208))) = 1800%Q
  /\ fst (_token_seconds "access_token"
            (session_at logged_in_state (1000 + (1 # 8796093022208))
               (json_response 200 VNone)))
     = Ok 1800
  /\ round_double (1 # 10) = (3602879701896397 # 36028797018963968)%Q
  /\ fst (_token_seconds "access_token" jumping_session) = Ok (-2).
Proof. vm_compute. repeat split. Qed.

(** Session files that hold something else than a JSON object: an empty
    list changes nothing, a list of pairs is stored, a pair after which a
    longer element comes is stored before the [ValueError], a text raises
    [ValueError] on its first character, a number raises [TypeError]. *)
Example init_odd_session_file_runs :
  (fst (init_over (VList [])) = Ok tt
   /\ state (snd (init_over (VList []))) = default_state)
  /\ (fst (init_over (VList [VList [VStr "access_token"; VStr "A1"]]))
      = Ok tt
      /\ Dict.get "access_token"
           (state (snd (init_over
                          (VList [VList [VStr "access_token"; VStr "A1"]]))))
         = Some (VStr "A1"))
  /\ (fst (init_over (VList [ VList [VStr "access_token"; VStr "A1"];
                              VList [VStr "a"; VStr "b"; VStr "c"] ]))
      = Raise (ValueError ("dictionary update sequence element #1 has "
                           ++ "length 3; 2 is required"))
      /\ Dict.get "access_token"
           (state (snd (init_over
                          (VList [ VList [VStr "access_token"; VStr "A1"];
                                   VList [VStr "a"; VStr "b"; VStr "c"] ]))))
         = Some (VStr "A1"))
  /\ fst (init_over (VStr "abc"))
     = Raise (ValueError ("dictionary update sequence element #0 has "
                          ++ "length 1; 2 is required"))
  /\ fst (init_over (VStr "")) = Ok tt
  /\ fst (init_over (VInt 5)) = Raise TypeError.
Proof. vm_compute. repeat split. Qed.

(** [_silent_sso] with an expired access token: the refresh token has
    expired too, no request; the refresh succeeds, one request; the refresh
    is refused, one request, and the method still returns [True]. *)
Example silent_sso_runs :
  (fst (_silent_sso
          (session_at logged_in_state 8000000
             (json_response 200 good_token_response)))
   = Ok false
   /\ sent (snd (_silent_sso
                   (session_at logged_in_state 8000000
                      (json_response 200 good_token_response))))
      = [])
  /\ (fst (_silent_sso
             (session_at logged_in_state 3000
                (json_response 200 good_token_response)))
      = Ok true
      /\ List.length
           (sent (snd (_silent_sso
                         (session_at logged_in_state 3000
                            (json_response 200 good_token_response)))))
         = 1%nat
      /\ Dict.get "access_token"
           (state (snd (_silent_sso
                          (session_at logged_in_state 3000
                             (json_response 200 good_token_response)))))
         = Some (VStr "A"))
  /\ (fst (_silent_sso
             (session_at logged_in_state 3000
                (json_response 200 error_token_response)))
      = Ok true
      /\ Dict.get "access_token"
           (state (snd (_silent_sso
                          (session_at logged_in_state 3000
                             (json_response 200 error_token_response)))))
         = Some (VStr "A0")).
Proof. repeat split. Qed.

(** A refresh that the token endpoint answers with status 400: the response
    is [None], and [_token_save] raises [TypeError] on it. *)
Example refresh_rejected_run :
  fst (grab_refresh_token
         (session_at logged_in_state 3000
            (json_response 400 error_token_response)))
  = Raise TypeError.
Proof. reflexivity. Qed.

(** A token response with an access token and nothing else: [KeyError]
    on [refresh_token], after the access token has been stored. *)
Example partial_token_response_run :
  fst (_token_save (VDict [("access_token", VStr "A")])
         (session_at default_state 1000 (json_response 200 VNone)))
  = Raise (KeyError "refresh_token")
  /\ Dict.get "access_token"
       (state (snd (_token_save (VDict [("access_token", VStr "A")])
                      (session_at default_state 1000
                         (json_response 200 VNone)))))
     = Some (VStr "A")
  /\ Dict.get "loggedin"
       (state (snd (_token_save (VDict [("access_token", VStr "A")])
                      (session_at default_state 1000
                         (json_response 200 VNone)))))
     = Some (VBool false).
Proof. repeat split. Qed.

(** [str.split] on texts with no, one, two and overlapping separators. *)
Example split_runs :
  Str.split "orders/" "" = [""]
  /\ Str.split "orders/" "a/orders/555" = ["a/"; "555"]
  /\ Str.split "orders/" "a/orders/1/orders/2" = ["a/"; "1/"; "2"]
  /\ Str.split "orders/" "orders/orders/" = [""; ""; ""]
  /\ Str.split "aa" "aaa" = [""; "a"].
Proof. repeat split. Qed.

(** The validator on a single string, and on names it looks up in vain. *)
Example validate_arguments_runs :
  _validate_arguments market_hours_arguments "get_market_hours" "markets"
    (VStr "BOND")
  = Ok true
  /\ _validate_arguments market_hours_arguments "get_quotes" "markets"
       (VStr "BOND")
     = Raise (KeyError "get_quotes")
  /\ _validate_arguments market_hours_arguments "get_market_hours" "date"
       (VStr "BOND")
     = Raise (KeyError "date")
  /\ _validate_arguments market_hours_arguments "get_market_hours" "markets"
       VNone
     = Raise TypeError.
Proof. repeat split. Qed.

(** [WatchlistItem] refuses an unknown argument and an unknown asset type. *)
Example watchlist_init_runs :
  fst (WatchlistItem.__init__ [("ticker", VStr "AAPL")] blank_item)
  = Raise (KeyError "Invalid Argument Name.")
  /\ fst (WatchlistItem.__init__ [("assetType", VStr "CRYPTO")] blank_item)
     = Raise (KeyError "Invalid Value.")
  /\ fst (WatchlistItem.__init__ watchlist_kwargs blank_item) = Ok tt.
Proof. repeat split. Qed.
